(** * Querier: typed lookups in a namespaced filing document

    A shallow embedding of [extractor/querier.py] and the properties of its
    construction path ([from_file]) and lookup path ([find_str], [find_int],
    [find_float], [_add_namespace]).

    Conventions of the embedding.
    - A Python [str] is a [string]; every [ascii] stands for one code point,
      so the texts covered are those over U+0000..U+00FF.
    - A call either returns or raises: [outcome].  The [while] loop of
      [from_file] need not terminate; it is run with fuel, and [None] means
      that the loop was still running when the fuel ran out.
    - The accessor is threaded through its methods as the state of a small
      state-and-exception monad, so that "no mutation" is a statement about
      the final state and not a convention.
    - [defusedxml]'s parser, the part of ElementPath beyond plain child
      steps and the reading of a file are outside the repository; they are
      parameters.  Logging carries no result and is left out. *)

From Stdlib Require Import ZArith NArith Ascii String List Bool Lia.
From Stdlib Require DecimalString DecimalPos.
From stdpp Require Import base gmap strings list.

Local Open Scope Z_scope.

(* ===================================================================== *)
(** * Part I: definitions *)
(* ===================================================================== *)

(** ** Results of a call *)

Inductive exn : Type :=
| ValueError
| TypeError
| SyntaxError
| ParseError
| FileNotFoundError
| OtherError (name : string).

Inductive outcome (A : Type) : Type :=
| Return (a : A)
| Raise (e : exn).

Arguments Return {A} a.
Arguments Raise {A} e.

Definition is_raise {A : Type} (o : outcome A) : bool :=
  match o with
  | Raise _ => true
  | Return _ => false
  end.

(** ** The Python built-ins the source calls *)

Module Py.

(** [s.startswith(prefix)] *)
Fixpoint startswith (s prefix : string) {struct prefix} : bool :=
  match prefix, s with
  | EmptyString, _ => true
  | String p prefix', String c s' => Ascii.eqb c p && startswith s' prefix'
  | String _ _, EmptyString => false
  end.

(** [s[1:]]: the empty string stays empty. *)
Definition slice_from_1 (s : string) : string :=
  match s with
  | EmptyString => EmptyString
  | String _ s' => s'
  end.

(** [c * n] for a character [c]. *)
Fixpoint repeat (c : ascii) (n : nat) : string :=
  match n with
  | O => EmptyString
  | S n' => String c (repeat c n')
  end.

(** [c in chars] for a character [c]. *)
Fixpoint contains (chars : string) (c : ascii) : bool :=
  match chars with
  | EmptyString => false
  | String d chars' => Ascii.eqb c d || contains chars' c
  end.

(** [s.lstrip(chars)]: drops the longest prefix made of characters of
    [chars]. *)
Fixpoint lstrip (chars : string) (s : string) : string :=
  match s with
  | EmptyString => EmptyString
  | String c s' => if contains chars c then lstrip chars s' else s
  end.

(** [s.split(sep)] for a one-character separator: never the empty list, the
    empty string splits into one empty piece. *)
Fixpoint split (sep : ascii) (s : string) : list string :=
  match s with
  | EmptyString => [EmptyString]
  | String c s' =>
      if Ascii.eqb c sep then EmptyString :: split sep s'
      else match split sep s' with
           | [] => [String c EmptyString]
           | piece :: pieces => String c piece :: pieces
           end
  end.

(** [sep.join(pieces)] *)
Fixpoint join (sep : string) (pieces : list string) : string :=
  match pieces with
  | [] => EmptyString
  | [piece] => piece
  | piece :: pieces' => piece +:+ sep +:+ join sep pieces'
  end.

(** [s.split(sep, 1)] when [sep] occurs in [s]: the text before the first
    separator and the text after it; [None] when [sep] does not occur. *)
Fixpoint partition_first (sep : ascii) (s : string) : option (string * string) :=
  match s with
  | EmptyString => None
  | String c s' =>
      if Ascii.eqb c sep then Some (EmptyString, s')
      else match partition_first sep s' with
           | Some (before, after) => Some (String c before, after)
           | None => None
           end
  end.

(** [s.encode("utf-8")] for code points below U+0100: one byte below
    U+0080, two bytes from there on. *)
Definition encode_char (c : ascii) : list Byte.byte :=
  let n := N_of_ascii c in
  if (n <? 128)%N then [byte_of_ascii c]
  else [byte_of_ascii (ascii_of_N (N.lor 192 (N.shiftr n 6)));
        byte_of_ascii (ascii_of_N (N.lor 128 (N.land n 63)))].

Fixpoint encode_utf8 (s : string) : list Byte.byte :=
  match s with
  | EmptyString => []
  | String c s' => encode_char c ++ encode_utf8 s'
  end.

(** *** [int(s)] and [float(s)] on a [str]

    CPython first maps every non-ASCII white space of the text to a blank
    and then reads ASCII; among the code points below U+0100 the white
    space accepted on both sides of a number is TAB..CR, the blank, U+0085
    and U+00A0, and the only decimal digits are [0]..[9]. *)

Definition is_space (c : ascii) : bool :=
  let n := N_of_ascii c in
  ((9 <=? n) && (n <=? 13) || (n =? 32) || (n =? 133) || (n =? 160))%N.

Definition digit_value (c : ascii) : option Z :=
  let n := N_of_ascii c in
  if ((48 <=? n) && (n <=? 57))%N then Some (Z.of_N n - 48) else None.

Definition is_digit (c : ascii) : bool :=
  match digit_value c with
  | Some _ => true
  | None => false
  end.

Fixpoint skip_spaces (s : string) : string :=
  match s with
  | EmptyString => EmptyString
  | String c s' => if is_space c then skip_spaces s' else s
  end.

(** The optional sign in front of a number: whether it is [-], and the text
    after it. *)
Definition take_sign (s : string) : bool * string :=
  match s with
  | String c s' =>
      if Ascii.eqb c "-" then (true, s')
      else if Ascii.eqb c "+" then (false, s')
      else (false, s)
  | EmptyString => (false, s)
  end.

(** The digit scan of [int]: digits, with single underscores between them.
    Returns the value read, the number of digits and the text left; [None]
    for a doubled or a trailing underscore. *)
Fixpoint scan_digits (s : string) (after_underscore : bool) (ndigits : nat) (acc : Z)
  : option (Z * nat * string) :=
  match s with
  | EmptyString =>
      if after_underscore then None else Some (acc, ndigits, EmptyString)
  | String c s' =>
      match digit_value c with
      | Some d => scan_digits s' false (S ndigits) (10 * acc + d)
      | None =>
          if Ascii.eqb c "_" then
            if after_underscore then None else scan_digits s' true ndigits acc
          else if after_underscore then None
          else Some (acc, ndigits, s)
      end
  end.

(** The interpreter's cap on the digits of an integer literal
    ([sys.get_int_max_str_digits()], [0] for no cap, which is also the
    behaviour of interpreters that have no such setting); it is looked at
    only for more than 640 digits. *)
Definition exceeds_digit_cap (max_str_digits ndigits : nat) : bool :=
  (640 <? ndigits)%nat && (0 <? max_str_digits)%nat && (max_str_digits <? ndigits)%nat.

(** [int(s)]: [None] stands for [ValueError]. *)
Definition int (max_str_digits : nat) (s : string) : option Z :=
  let '(negative, body) := take_sign (skip_spaces s) in
  match body with
  | EmptyString => None
  | String c _ =>
      if is_digit c then
        match scan_digits body false 0 0 with
        | None => None
        | Some (n, ndigits, rest) =>
            if exceeds_digit_cap max_str_digits ndigits then None
            else match skip_spaces rest with
                 | EmptyString => Some (if negative then - n else n)
                 | String _ _ => None
                 end
        end
      else None
  end.

(** [str(n)] for an integer [n], and the number of digits in it. *)
Definition str_of_int (n : Z) : string :=
  DecimalString.NilZero.string_of_int (Z.to_int n).

Definition digits_of_int (n : Z) : nat :=
  match Z.to_int n with
  | Decimal.Pos d | Decimal.Neg d => Decimal.nb_digits d
  end.

(** The value [float(s)] denotes, before CPython rounds it to the nearest
    binary64: an infinity, a NaN, or [(-1)^negative * mantissa * 10^exponent]. *)
Inductive PyFloat : Type :=
| FInf (negative : bool)
| FNan (negative : bool)
| FDecimal (negative : bool) (mantissa : Z) (exponent : Z).

Fixpoint rstrip_spaces (s : string) : string :=
  match s with
  | EmptyString => EmptyString
  | String c s' =>
      match rstrip_spaces s' with
      | EmptyString => if is_space c then EmptyString else String c EmptyString
      | kept => String c kept
      end
  end.

(** Underscores of a float literal: each stands between two digits and is
    dropped; [None] otherwise.  [prev] is the character before [s]. *)
Fixpoint drop_underscores (prev : ascii) (s : string) : option string :=
  match s with
  | EmptyString => if Ascii.eqb prev "_" then None else Some EmptyString
  | String c s' =>
      if Ascii.eqb c "_" then
        if is_digit prev then drop_underscores c s' else None
      else if Ascii.eqb prev "_" && negb (is_digit c) then None
      else match drop_underscores c s' with
           | Some kept => Some (String c kept)
           | None => None
           end
  end.

(** A run of digits: the value (continuing [acc]), how many, the text left. *)
Fixpoint take_digits (s : string) (ndigits : nat) (acc : Z) : Z * nat * string :=
  match s with
  | EmptyString => (acc, ndigits, s)
  | String c s' =>
      match digit_value c with
      | Some d => take_digits s' (S ndigits) (10 * acc + d)
      | None => (acc, ndigits, s)
      end
  end.

Definition lower (c : ascii) : ascii :=
  let n := N_of_ascii c in
  if ((65 <=? n) && (n <=? 90))%N then ascii_of_N (n + 32) else c.

Fixpoint lower_str (s : string) : string :=
  match s with
  | EmptyString => EmptyString
  | String c s' => String (lower c) (lower_str s')
  end.

(** The exponent part after the mantissa: [Some e] when the text is empty
    ([e = 0]) or is [e]/[E], an optional sign and at least one digit, with
    nothing after. *)
Definition parse_exponent (s : string) : option Z :=
  match s with
  | EmptyString => Some 0
  | String c s' =>
      if Ascii.eqb (lower c) "e" then
        let '(negative, digits) := take_sign s' in
        match take_digits digits 0 0 with
        | (_, O, _) => None
        | (e, S _, EmptyString) => Some (if negative then - e else e)
        | (_, S _, String _ _) => None
        end
      else None
  end.

(** A decimal number: sign, digits with an optional point among them (at
    least one digit), optional exponent. *)
Definition parse_decimal (s : string) : option PyFloat :=
  let '(negative, body) := take_sign s in
  let '(int_part, n_int, after_int) := take_digits body 0 0 in
  let '(mantissa, n_frac, after_frac) :=
    match after_int with
    | String c s' =>
        if Ascii.eqb c "." then
          let '(m, n, rest) := take_digits s' 0 int_part in (m, n, rest)
        else (int_part, O, after_int)
    | EmptyString => (int_part, O, after_int)
    end in
  match (n_int + n_frac)%nat with
  | O => None
  | S _ =>
      match parse_exponent after_frac with
      | Some e => Some (FDecimal negative mantissa (e - Z.of_nat n_frac))
      | None => None
      end
  end.

Definition parse_inf_or_nan (s : string) : option PyFloat :=
  let '(negative, body) := take_sign s in
  let word := lower_str body in
  if String.eqb word "inf" || String.eqb word "infinity" then Some (FInf negative)
  else if String.eqb word "nan" then Some (FNan negative)
  else None.

(** [float(s)]: [None] stands for [ValueError]. *)
Definition float (s : string) : option PyFloat :=
  match drop_underscores "000" (rstrip_spaces (skip_spaces s)) with
  | None => None
  | Some literal =>
      match parse_decimal literal with
      | Some x => Some x
      | None => parse_inf_or_nan literal
      end
  end.

End Py.

(** ** The parsed tree and its search, as the XML library provides them *)

Module ElementTree.

(** An element of the parsed tree.  [text] is the text between the start tag
    and the first child or the end tag, and [None] when there is none: that
    is what the parser stores for [<a/>] and for [<a></a>].  [tag] carries
    the namespace in braces, as in [{http://www.irs.gov/efile}ReturnData]. *)
#[warning="-register-all"]
Inductive Element : Type :=
  mkElement {
    tag : string;
    attrib : list (string * string);
    text : option string;
    tail : option string;
    children : list Element
  }.

(** White space for the tokenizer's regular expression ([\s] on a [str]). *)
Definition re_space (c : ascii) : bool :=
  let n := N_of_ascii c in
  ((9 <=? n) && (n <=? 13) || (28 <=? n) && (n <=? 32) || (n =? 133) || (n =? 160))%N.

(** The characters of the tokenizer's tag class, [[^/\[\]\(\)@!=\s]]. *)
Definition tag_char (c : ascii) : bool :=
  negb (re_space c || Py.contains "/[]()@!=" c).

(** A piece of a path (the text between two slashes) that the tokenizer
    reads as one tag token and that is no wildcard: it is not empty, does
    not start with a character that opens another token (a quote, [.],
    [:]), and holds only tag characters other than [*], [{] and [}]. *)
Definition plain_piece (piece : string) : bool :=
  match piece with
  | EmptyString => false
  | String c _ =>
      negb (Py.contains "'.:" c || Ascii.eqb c "034")
      && forallb (fun d => tag_char d && negb (Py.contains "*{}" d)) (list_ascii_of_string piece)
  end.

(** A caller's segment that gives a plain piece once it stands behind a
    prefix; it may be empty. *)
Definition simple_segment (segment : string) : bool :=
  forallb (fun d => tag_char d && negb (Py.contains "*{}" d)) (list_ascii_of_string segment).

(** What the tokenizer yields for a tag token: a prefixed name is resolved
    through [namespaces] (an unknown prefix is a [SyntaxError]), an
    unprefixed one takes the default namespace when there is one. *)
Definition qualify_tag (namespaces : gmap string string) (name : string) : outcome string :=
  if Py.startswith name "{" then Return name
  else match Py.partition_first ":" name with
       | Some (prefix, local) =>
           match namespaces !! prefix with
           | Some uri => Return ("{" +:+ uri +:+ "}" +:+ local)
           | None => Raise SyntaxError
           end
       | None =>
           match namespaces !! EmptyString with
           | Some (String c uri) => Return ("{" +:+ String c uri +:+ "}" +:+ name)
           | _ => Return name
           end
       end.

Fixpoint qualify_tags (namespaces : gmap string string) (names : list string)
  : outcome (list string) :=
  match names with
  | [] => Return []
  | name :: names' =>
      match qualify_tag namespaces name with
      | Raise e => Raise e
      | Return t =>
          match qualify_tags namespaces names' with
          | Raise e => Raise e
          | Return ts => Return (t :: ts)
          end
      end
  end.

Fixpoint endswith (s suffix : string) : bool :=
  String.eqb s suffix
  || match s with
     | EmptyString => false
     | String _ s' => endswith s' suffix
     end.

(** [_is_wildcard_tag]: [{*}name] and [{uri}*]. *)
Definition _is_wildcard_tag (t : string) : bool :=
  Py.startswith t "{*}" || endswith t "}*".

(** The selector of a child step: the children, in document order, of the
    elements of [result] whose tag is [t] ([{}name] is [name]). *)
Definition select_child (t : string) (result : list Element) : list Element :=
  let t := if Py.startswith t "{}" then Py.slice_from_1 (Py.slice_from_1 t) else t in
  flat_map (fun elem => List.filter (fun e => String.eqb (tag e) t) (children elem)) result.

Definition select_steps (elem : Element) (tags : list string) : list Element :=
  fold_left (fun result t => select_child t result) tags [elem].

Section Find.

(** The search for a path that is not made of plain pieces only
    (predicates, wildcards, [.], [..], [//], an absolute or empty path). *)
Variable find_xpath : Element -> string -> gmap string string -> outcome (option Element).

(** [elem.find(path, namespaces)]: the first element the path selects from
    [elem], [None] when it selects none. *)
Definition find (elem : Element) (path : string) (namespaces : gmap string string)
  : outcome (option Element) :=
  let pieces := Py.split "/" path in
  if forallb plain_piece pieces then
    match qualify_tags namespaces pieces with
    | Raise e => Raise e
    | Return tags =>
        if existsb _is_wildcard_tag tags then find_xpath elem path namespaces
        else Return (head (select_steps elem tags))
    end
  else find_xpath elem path namespaces.

End Find.

End ElementTree.

Import ElementTree.

(** ** The accessor *)

Record Querier : Type := mkQuerier {
  _namespaces : gmap string string;
  _tree : Element
}.

(** A method: it reads and may replace [self], and returns or raises. *)
Definition method (A : Type) : Type := Querier -> outcome A * Querier.

Definition ret {A : Type} (a : A) : method A := fun self => (Return a, self).

Definition raise {A : Type} (e : exn) : method A := fun self => (Raise e, self).

Definition bind {A B : Type} (m : method A) (k : A -> method B) : method B :=
  fun self =>
    match m self with
    | (Return a, self') => k a self'
    | (Raise e, self') => (Raise e, self')
    end.

(** Reading an attribute of [self]. *)
Definition attr {A : Type} (field : Querier -> A) : method A :=
  fun self => (Return (field self), self).

(** A call into a library that does not see [self]. *)
Definition lift {A : Type} (o : outcome A) : method A := fun self => (o, self).

Notation "x <- m ;; k" := (bind m (fun x => k))
  (at level 100, m at next level, right associativity).

Definition result {A : Type} (m : method A) (self : Querier) : outcome A := fst (m self).

Definition after {A : Type} (m : method A) (self : Querier) : Querier := snd (m self).

(** [Querier.__init__] *)
Definition __init__ (tree : Element) : Querier :=
  {| _namespaces := {[ "efile" := "http://www.irs.gov/efile" ]};
     _tree := tree |}.

(** [Querier._add_namespace]; it does not look at [self]. *)
Definition _add_namespace (path : string) : string :=
  let segments :=
    "efile:ReturnData"
    :: map (fun t => "efile:" +:+ t) (Py.split "/" (Py.lstrip "/" path)) in
  let fullPath := Py.join "/" segments in
  fullPath.

(** The [while] loop of [from_file], one test of its condition per unit of
    fuel. *)
Fixpoint strip_loop (fuel : nat) (content : string) : option string :=
  match fuel with
  | O => None
  | S fuel' =>
      if negb (Py.startswith content "<") then strip_loop fuel' (Py.slice_from_1 content)
      else Some content
  end.

(** The same loop as a relation: [strip_exits content content'] when the
    loop entered with [content] is left with [content']. *)
Inductive strip_exits : string -> string -> Prop :=
| strip_done content :
    Py.startswith content "<" = true -> strip_exits content content
| strip_more content content' :
    Py.startswith content "<" = false ->
    strip_exits (Py.slice_from_1 content) content' ->
    strip_exits content content'.

Section Accessor.

(** [defusedxml.ElementTree.fromstring]. *)
Variable fromstring : list Byte.byte -> outcome Element.

Variable find_xpath : Element -> string -> gmap string string -> outcome (option Element).

(** [sys.get_int_max_str_digits()], see [Py.exceeds_digit_cap]. *)
Variable int_max_str_digits : nat.

(** [Querier.from_file], from the text [xml_file.read()] returned. *)
Definition from_file (fuel : nat) (content : string) : option (outcome Querier) :=
  match strip_loop fuel content with
  | None => None
  | Some content =>
      let byteContent := Py.encode_utf8 content in
      match fromstring byteContent with
      | Raise e => Some (Raise e)
      | Return tree => Some (Return (__init__ tree))
      end
  end.

(** [open(xml_path)] and the [read()] of the file: the text, or whatever
    either of them raises. *)
Variable read_text : string -> outcome string.

(** [Querier.from_path] *)
Definition from_path (fuel : nat) (xml_path : string) : option (outcome Querier) :=
  match read_text xml_path with
  | Raise e => Some (Raise e)
  | Return content => from_file fuel content
  end.

(** [Querier.find_str] *)
Definition find_str (path : string) : method (option string) :=
  let fullPath := _add_namespace path in
  tree <- attr _tree ;;
  namespaces <- attr _namespaces ;;
  element <- lift (find find_xpath tree fullPath namespaces) ;;
  match element with
  | None => ret None
  | Some e => ret (text e)
  end.

(** [Querier.find_int] *)
Definition find_int (path : string) : method (option Z) :=
  rawValue <- find_str path ;;
  match rawValue with
  | None => ret None
  | Some s =>
      match Py.int int_max_str_digits s with
      | Some n => ret (Some n)
      | None => raise ValueError
      end
  end.

(** [Querier.find_float] *)
Definition find_float (path : string) : method (option Py.PyFloat) :=
  rawValue <- find_str path ;;
  match rawValue with
  | None => ret None
  | Some s =>
      match Py.float s with
      | Some x => ret (Some x)
      | None => raise ValueError
      end
  end.

(** A lookup and what it returned. *)
Inductive lookup : Type :=
| FindStr (path : string)
| FindInt (path : string)
| FindFloat (path : string).

Inductive value : Type :=
| VStr (s : option string)
| VInt (n : option Z)
| VFloat (x : option Py.PyFloat).

Definition fmap_method {A B : Type} (f : A -> B) (m : method A) : method B :=
  a <- m ;; ret (f a).

Definition call (l : lookup) : method value :=
  match l with
  | FindStr path => fmap_method VStr (find_str path)
  | FindInt path => fmap_method VInt (find_int path)
  | FindFloat path => fmap_method VFloat (find_float path)
  end.

(** A caller that makes the lookups of [ls] one after the other on the same
    accessor and carries on after a raise: the results, and the accessor
    at the end. *)
Fixpoint calls (ls : list lookup) (self : Querier) : list (outcome value) * Querier :=
  match ls with
  | [] => ([], self)
  | l :: ls' =>
      let '(o, self') := call l self in
      let '(os, self'') := calls ls' self' in
      (o :: os, self'')
  end.

End Accessor.

(** ** Path qualification as the specification words it *)

(** Step 1 of the specification: "strip any single leading slash". *)
Definition spec_strip_one_slash (path : string) : string :=
  match path with
  | String c path' => if Ascii.eqb c "/" then path' else path
  | EmptyString => path
  end.

(** Steps 1 to 5 of the specification. *)
Definition spec_qualify (path : string) : string :=
  let segments := Py.split "/" (spec_strip_one_slash path) in
  Py.join "/" ("efile:ReturnData" :: map (fun t => "efile:" +:+ t) segments).

(** ** Sample data for the examples *)

Definition efile (name : string) : string := "{http://www.irs.gov/efile}" +:+ name.

Definition leaf (name : string) (content : option string) : Element :=
  mkElement (efile name) [] content None [].

Definition node (name : string) (kids : list Element) : Element :=
  mkElement (efile name) [] None None kids.

(** A filing as the source's docstring has it: [Return] at the root,
    [ReturnData] below it. *)
Definition filing : Element :=
  node "Return"
    [ node "ReturnHeader" [ leaf "TaxYr" (Some "2019") ];
      node "ReturnData"
        [ node "IRS990"
            [ leaf "FormationYr" (Some "2004");
              leaf "TotalEmployeeCnt" (Some "19");
              leaf "WebsiteAddressTxt" None;
              leaf "PrincipalOfficerNm" (Some "N/A") ];
          leaf "TotalEmployeeCnt" (Some "19") ] ].

(** A document whose root element is [ReturnData] itself. *)
Definition return_data_at_root : Element :=
  node "ReturnData" [ leaf "TotalEmployeeCnt" (Some "19") ].

(** A document printed with white space around the text of its elements. *)
Definition padded_filing : Element :=
  node "Return"
    [ node "ReturnData"
        [ leaf "TotalEmployeeCnt" (Some (String "010" "  19 "));
          leaf "Blank" (Some (String "010" "  ")) ] ].

(** A parser that knows one document, and a search that refuses every path
    beyond plain pieces: they instantiate the parameters in the examples,
    none of which depends on the choice. *)
Definition sample_text : string := "<Return xmlns='http://www.irs.gov/efile'/>".

Fixpoint bytes_eqb (a b : list Byte.byte) : bool :=
  match a, b with
  | [], [] => true
  | x :: a', y :: b' => Byte.eqb x y && bytes_eqb a' b'
  | _, _ => false
  end.

Definition sample_fromstring (bytes : list Byte.byte) : outcome Element :=
  if bytes_eqb bytes (Py.encode_utf8 sample_text) then Return (node "Return" [])
  else Raise ParseError.

Definition no_xpath (elem : Element) (path : string) (namespaces : gmap string string)
  : outcome (option Element) := Raise SyntaxError.

(** A second parser: as [sample_fromstring] on bytes that start with [<],
    and accepting everything else. *)
Definition lenient_fromstring (bytes : list Byte.byte) : outcome Element :=
  match bytes with
  | Byte.x3c :: _ => sample_fromstring bytes
  | _ => Return (node "Anything" [])
  end.

(* ===================================================================== *)
(** * Part II: properties *)
(* ===================================================================== *)

(** ** Strings *)

Lemma append_cons (c : ascii) (s t : string) : String c s +:+ t = String c (s +:+ t).
Proof. reflexivity. Qed.

Lemma append_nil_l (t : string) : EmptyString +:+ t = t.
Proof. reflexivity. Qed.

Lemma contains_slash (c : ascii) : Py.contains "/" c = Ascii.eqb c "/".
Proof. cbn. apply orb_false_r. Qed.

Lemma startswith_one (s : string) (c : ascii) :
  Py.startswith s (String c EmptyString)
  = match s with String d _ => Ascii.eqb d c | EmptyString => false end.
Proof. destruct s as [|d s]; cbn; [reflexivity | apply andb_true_r]. Qed.

(** What [lstrip] leaves does not start with a stripped character. *)
Lemma lstrip_head (chars s : string) :
  match Py.lstrip chars s with
  | String c _ => Py.contains chars c = false
  | EmptyString => True
  end.
Proof.
  induction s as [|c s IH]; cbn; [exact I|].
  destruct (Py.contains chars c) eqn:E; [exact IH | exact E].
Qed.

Lemma lstrip_fixed (chars s : string) :
  match s with String c _ => Py.contains chars c = false | EmptyString => True end ->
  Py.lstrip chars s = s.
Proof. destruct s as [|c s]; cbn; [reflexivity|]. intros ->. reflexivity. Qed.

Lemma lstrip_idem (chars s : string) :
  Py.lstrip chars (Py.lstrip chars s) = Py.lstrip chars s.
Proof. apply lstrip_fixed, lstrip_head. Qed.

Lemma lstrip_repeat (c : ascii) (n : nat) (s : string) :
  Py.lstrip (String c EmptyString) (Py.repeat c n +:+ s) = Py.lstrip (String c EmptyString) s.
Proof.
  induction n as [|n IH]; [reflexivity|].
  cbn [Py.repeat]. rewrite append_cons. cbn [Py.lstrip Py.contains].
  rewrite Ascii.eqb_refl. exact IH.
Qed.

(** [split] never returns the empty list. *)
Lemma split_cons (sep : ascii) (s : string) :
  exists piece pieces, Py.split sep s = piece :: pieces.
Proof.
  destruct s as [|c s]; cbn; [eauto|].
  destruct (Ascii.eqb c sep); [eauto|].
  destruct (Py.split sep s); eauto.
Qed.

(** No piece of a split holds the separator. *)
Lemma split_pieces (sep : ascii) (s : string) :
  Forall (fun piece => Py.contains piece sep = false) (Py.split sep s).
Proof.
  induction s as [|c s IH]; cbn.
  - repeat constructor.
  - destruct (Ascii.eqb c sep) eqn:E.
    + constructor; [reflexivity | exact IH].
    + destruct (Py.split sep s) as [|piece pieces]; [repeat constructor; cbn|].
      * rewrite Ascii.eqb_sym, E. reflexivity.
      * inversion IH; subst. constructor; [|assumption].
        cbn. rewrite Ascii.eqb_sym, E. assumption.
Qed.

Lemma split_no_sep (sep : ascii) (s : string) :
  Py.contains s sep = false -> Py.split sep s = [s].
Proof.
  induction s as [|c s IH]; cbn; [reflexivity|].
  intros [E1 E2]%orb_false_iff. rewrite Ascii.eqb_sym, E1, (IH E2). reflexivity.
Qed.

Lemma split_app (sep : ascii) (s t : string) :
  Py.contains s sep = false ->
  Py.split sep (s +:+ String sep t) = s :: Py.split sep t.
Proof.
  induction s as [|c s IH]; cbn [Py.contains]; intros E.
  - rewrite append_nil_l. cbn [Py.split]. rewrite Ascii.eqb_refl. reflexivity.
  - apply orb_false_iff in E as [E1 E2].
    rewrite append_cons. cbn [Py.split]. rewrite Ascii.eqb_sym, E1, (IH E2). reflexivity.
Qed.

(** Joining pieces that hold no separator and splitting again gives the
    pieces back. *)
Lemma split_join (sep : ascii) (piece : string) (pieces : list string) :
  Forall (fun p => Py.contains p sep = false) (piece :: pieces) ->
  Py.split sep (Py.join (String sep EmptyString) (piece :: pieces)) = piece :: pieces.
Proof.
  revert piece. induction pieces as [|q pieces IH]; intros piece H; inversion H; subst.
  - cbn [Py.join]. apply split_no_sep. assumption.
  - change (Py.join (String sep EmptyString) (piece :: q :: pieces))
      with (piece +:+ String sep EmptyString +:+ Py.join (String sep EmptyString) (q :: pieces)).
    rewrite append_cons, append_nil_l, split_app by assumption.
    f_equal. apply IH. assumption.
Qed.

Lemma contains_append (s t : string) (c : ascii) :
  Py.contains (s +:+ t) c = Py.contains s c || Py.contains t c.
Proof.
  induction s as [|d s IH]; [reflexivity|].
  rewrite append_cons. cbn [Py.contains]. rewrite IH. apply orb_assoc.
Qed.

(** ** [int] reads back what [str] prints *)

Lemma scan_digits_uint (d d' : Decimal.uint) (k : nat) :
  Py.scan_digits (DecimalString.NilEmpty.string_of_uint d) false k
    (Z.of_N (DecimalPos.Unsigned.of_lu d'))
  = Some (Z.of_N (DecimalPos.Unsigned.of_lu (Decimal.revapp d d')),
          (k + Decimal.nb_digits d)%nat, EmptyString).
Proof.
  revert d' k.
  induction d as [|d IH|d IH|d IH|d IH|d IH|d IH|d IH|d IH|d IH|d IH]; intros d' k;
    cbn [DecimalString.NilEmpty.string_of_uint Decimal.revapp Decimal.nb_digits Py.scan_digits];
    [rewrite Nat.add_0_r; reflexivity|..];
    match goal with
    | |- context [Py.digit_value ?c] =>
        let v := eval vm_compute in (Py.digit_value c) in
        change (Py.digit_value c) with v; cbv iota
    end;
    rewrite <- Nat.add_succ_comm, <- IH; f_equal;
    cbn [DecimalPos.Unsigned.of_lu]; lia.
Qed.

Lemma int_of_uint (max_str_digits : nat) (negative : bool) (d : Decimal.uint) :
  d <> Decimal.Nil ->
  Py.exceeds_digit_cap max_str_digits (Decimal.nb_digits d) = false ->
  Py.int max_str_digits
    ((if negative then "-" else "") +:+ DecimalString.NilEmpty.string_of_uint d)
  = Some (if negative then - Z.of_uint d else Z.of_uint d).
Proof.
  intros Hd Hcap.
  assert (Hscan := scan_digits_uint d Decimal.Nil 0).
  change (Decimal.revapp d Decimal.Nil) with (Decimal.rev d) in Hscan.
  rewrite <- DecimalPos.Unsigned.of_uint_alt in Hscan.
  change (Z.of_N (DecimalPos.Unsigned.of_lu Decimal.Nil)) with 0 in Hscan.
  cbn [Nat.add] in Hscan.
  assert (Hhead : exists c s, DecimalString.NilEmpty.string_of_uint d = String c s
                              /\ Py.is_digit c = true /\ Py.is_space c = false
                              /\ Ascii.eqb c "-" = false /\ Ascii.eqb c "+" = false).
  { destruct d; [congruence|..]; cbn [DecimalString.NilEmpty.string_of_uint];
      eexists _, _; (split; [reflexivity|]); repeat split; reflexivity. }
  destruct Hhead as (c & s & Hs & Hdig & Hsp & Hm & Hp).
  unfold Py.int. rewrite Hs in *.
  destruct negative.
  - change ("-" +:+ String c s) with (String "-" (String c s)).
    change (Py.skip_spaces (String "-" (String c s))) with (String "-" (String c s)).
    change (Py.take_sign (String "-" (String c s))) with (true, String c s).
    cbv iota beta. rewrite Hdig, Hscan, Hcap. reflexivity.
  - change ("" +:+ String c s) with (String c s).
    cbn [Py.skip_spaces]. rewrite Hsp. unfold Py.take_sign. rewrite Hm, Hp.
    cbv iota beta. rewrite Hdig, Hscan, Hcap. reflexivity.
Qed.

Lemma string_of_uint_nonnil (d : Decimal.uint) :
  d <> Decimal.Nil ->
  DecimalString.NilZero.string_of_uint d = DecimalString.NilEmpty.string_of_uint d.
Proof. destruct d; [congruence | reflexivity..]. Qed.

(** [int(str(n)) == n], as long as the interpreter's cap on digits lets the
    text through. *)
Theorem int_str_roundtrip (max_str_digits : nat) (n : Z) :
  Py.exceeds_digit_cap max_str_digits (Py.digits_of_int n) = false ->
  Py.int max_str_digits (Py.str_of_int n) = Some n.
Proof.
  unfold Py.str_of_int, Py.digits_of_int.
  destruct n as [|p|p]; cbn [Z.to_int DecimalString.NilZero.string_of_int]; intros Hcap.
  - reflexivity.
  - pose proof (DecimalPos.Unsigned.to_uint_nonnil p) as Hd.
    rewrite (string_of_uint_nonnil _ Hd).
    refine (eq_trans (int_of_uint max_str_digits false _ Hd Hcap) _).
    unfold Z.of_uint. rewrite DecimalPos.Unsigned.of_to. reflexivity.
  - pose proof (DecimalPos.Unsigned.to_uint_nonnil p) as Hd.
    rewrite (string_of_uint_nonnil _ Hd).
    refine (eq_trans (int_of_uint max_str_digits true _ Hd Hcap) _).
    unfold Z.of_uint. rewrite DecimalPos.Unsigned.of_to. reflexivity.
Qed.

(** The two conversions on sample texts: white space around the number, a
    sign, and single underscores between digits are accepted. *)
Example int_samples :
  Py.int 4300 "19" = Some 19
  /\ Py.int 4300 " -1_000 " = Some (-1000)
  /\ Py.int 4300 "0012" = Some 12
  /\ Py.int 4300 "N/A" = None
  /\ Py.int 4300 "" = None
  /\ Py.int 4300 "19.0" = None
  /\ Py.int 4300 "1__0" = None
  /\ Py.int 4300 "+ 1" = None.
Proof. repeat split; reflexivity. Qed.

Example float_samples :
  Py.float "19" = Some (Py.FDecimal false 19 0)
  /\ Py.float " -1_0.25e-3 " = Some (Py.FDecimal true 1025 (-5))
  /\ Py.float ".5" = Some (Py.FDecimal false 5 (-1))
  /\ Py.float "1." = Some (Py.FDecimal false 1 0)
  /\ Py.float "-Infinity" = Some (Py.FInf true)
  /\ Py.float "NaN" = Some (Py.FNan false)
  /\ Py.float "N/A" = None
  /\ Py.float "" = None
  /\ Py.float "." = None
  /\ Py.float "1e" = None
  /\ Py.float "1_e5" = None.
Proof. repeat split; reflexivity. Qed.


(** ** Path qualification *)

Lemma add_namespace_lstrip (path : string) :
  _add_namespace (Py.lstrip "/" path) = _add_namespace path.
Proof. unfold _add_namespace. rewrite lstrip_idem. reflexivity. Qed.

Lemma spec_strip_lstrip (path : string) :
  spec_strip_one_slash (Py.lstrip "/" path) = Py.lstrip "/" path.
Proof.
  pose proof (lstrip_head "/" path) as H.
  destruct (Py.lstrip "/" path) as [|c s]; [reflexivity|].
  rewrite contains_slash in H. cbn. rewrite H. reflexivity.
Qed.

(** With at most one leading slash, stripping one slash and stripping all
    of them are the same. *)
Lemma lstrip_single (path : string) :
  Py.startswith path "//" = false ->
  Py.lstrip "/" path = spec_strip_one_slash path.
Proof.
  destruct path as [|c s]; [reflexivity|].
  cbn [Py.lstrip spec_strip_one_slash]. rewrite contains_slash.
  destruct (Ascii.eqb c "/") eqn:E; [|reflexivity].
  destruct s as [|d s]; [reflexivity|].
  cbn [Py.startswith]. rewrite E, andb_true_r. cbn [andb]. intros H.
  apply lstrip_fixed. rewrite contains_slash. exact H.
Qed.

(** C3 (as stated, refuted): on [//a] the source strips both slashes, the
    specified algorithm only one, and the qualified paths differ. *)
Lemma add_namespace_not_single_strip :
  _add_namespace "//a" <> spec_qualify "//a".
Proof. vm_compute. discriminate. Qed.

(** C3 (amended): path qualification is the specified algorithm run on the
    path with all its leading slashes removed; it is the specified algorithm
    itself on every path with at most one leading slash; [/IRS990/FormationYr]
    qualifies to [efile:ReturnData/efile:IRS990/efile:FormationYr], and a
    path with a leading slash qualifies as the path without it. *)
Theorem add_namespace_follows_spec :
  (forall path, _add_namespace path = spec_qualify (Py.lstrip "/" path))
  /\ (forall path, Py.startswith path "//" = false -> _add_namespace path = spec_qualify path)
  /\ _add_namespace "/IRS990/FormationYr" = "efile:ReturnData/efile:IRS990/efile:FormationYr"
  /\ (forall path, _add_namespace ("/" +:+ path) = _add_namespace path).
Proof.
  split; [|split; [|split]].
  - intros path. unfold spec_qualify. rewrite spec_strip_lstrip. reflexivity.
  - intros path H. unfold _add_namespace, spec_qualify.
    rewrite (lstrip_single _ H). reflexivity.
  - vm_compute. reflexivity.
  - intros path. unfold _add_namespace.
    change ("/" +:+ path) with (Py.repeat "/" 1 +:+ path).
    rewrite lstrip_repeat. reflexivity.
Qed.

Lemma add_namespace_follows_spec_witness :
  _add_namespace "/IRS990/FormationYr" = spec_qualify "/IRS990/FormationYr"
  /\ _add_namespace "IRS990/FormationYr" = spec_qualify "IRS990/FormationYr".
Proof.
  split; apply (proj1 (proj2 add_namespace_follows_spec)); reflexivity.
Defined.

(** C9: any number of leading slashes is stripped: [n] slashes followed by
    [p] qualify as [p] without its leading slashes. *)
Theorem add_namespace_leading_slashes (p : string) (n : nat) :
  _add_namespace (Py.repeat "/" n +:+ p) = _add_namespace (Py.lstrip "/" p).
Proof.
  rewrite add_namespace_lstrip. unfold _add_namespace.
  rewrite lstrip_repeat. reflexivity.
Qed.

Lemma prefixed_no_slash (pieces : list string) :
  Forall (fun p => Py.contains p "/" = false) pieces ->
  Forall (fun p => Py.contains p "/" = false) (map (fun t => "efile:" +:+ t) pieces).
Proof.
  induction 1 as [|p pieces Hp _ IH]; cbn [map]; constructor; [|exact IH].
  rewrite contains_append, Hp. reflexivity.
Qed.

(** The segments of a qualified path: the root segment, then every segment
    of the caller's path behind the prefix. *)
Lemma add_namespace_segments (path : string) :
  Py.split "/" (_add_namespace path)
  = "efile:ReturnData" :: map (fun t => "efile:" +:+ t) (Py.split "/" (Py.lstrip "/" path)).
Proof.
  unfold _add_namespace. apply (split_join "/").
  constructor; [reflexivity|]. apply prefixed_no_slash, split_pieces.
Qed.

(** C10: every segment of the caller's path is prefixed, whatever it holds:
    the segments of the qualified path are the root segment and the caller's
    segments, each behind [efile:]; a segment that carries the prefix already
    gets it a second time, and the empty path qualifies to
    [efile:ReturnData/efile:]. *)
Theorem add_namespace_unconditional :
  (forall path,
     Py.split "/" (_add_namespace path)
     = "efile:ReturnData" :: map (fun t => "efile:" +:+ t) (Py.split "/" (Py.lstrip "/" path)))
  /\ (forall name,
        Py.contains name "/" = false ->
        _add_namespace ("efile:" +:+ name) = "efile:ReturnData/efile:efile:" +:+ name)
  /\ _add_namespace "efile:Tag" = "efile:ReturnData/efile:efile:Tag"
  /\ _add_namespace "" = "efile:ReturnData/efile:".
Proof.
  split; [exact add_namespace_segments|].
  split; [|split; vm_compute; reflexivity].
  intros name H. unfold _add_namespace.
  change (Py.lstrip "/" ("efile:" +:+ name)) with ("efile:" +:+ name).
  rewrite split_no_sep by (rewrite contains_append, H; reflexivity).
  reflexivity.
Qed.

Lemma add_namespace_unconditional_witness :
  _add_namespace ("efile:" +:+ "Tag") = "efile:ReturnData/efile:efile:" +:+ "Tag".
Proof.
  apply (proj1 (proj2 add_namespace_unconditional)). reflexivity.
Defined.

(** ** The stripping loop of [from_file] *)

Lemma startswith_lt_cons (c : ascii) (s : string) :
  Py.startswith (String c s) "<" = Ascii.eqb c "<".
Proof. apply startswith_one. Qed.

Lemma contains_cons_false (c d : ascii) (s : string) :
  Py.contains (String c s) d = false -> Ascii.eqb c d = false /\ Py.contains s d = false.
Proof.
  cbn [Py.contains]. intros [E1 E2]%orb_false_iff. rewrite Ascii.eqb_sym. split; assumption.
Qed.

(** On a text without [<] the loop condition holds at every iteration: the
    text shrinks to the empty string, and [""[1:]] is [""] again. *)
Lemma strip_loop_no_lt (content : string) :
  Py.contains content "<" = false ->
  forall fuel, strip_loop fuel content = None.
Proof.
  intros H fuel. revert content H.
  induction fuel as [|fuel IH]; intros content H; [reflexivity|].
  destruct content as [|c s].
  - cbn. apply IH. reflexivity.
  - apply contains_cons_false in H as [E H].
    cbn [strip_loop]. rewrite startswith_lt_cons, E. cbn. apply IH, H.
Qed.

Lemma strip_exits_has_lt (content content' : string) :
  strip_exits content content' -> Py.contains content "<" = true.
Proof.
  induction 1 as [content H | content content' H _ IH].
  - destruct content as [|c s]; [discriminate|].
    rewrite startswith_lt_cons in H. cbn [Py.contains].
    rewrite Ascii.eqb_sym, H. reflexivity.
  - destruct content as [|c s]; [discriminate|].
    cbn [Py.slice_from_1] in IH. cbn [Py.contains]. rewrite IH. apply orb_true_r.
Qed.

(** The fuelled loop and the relation agree. *)
Lemma strip_loop_exits (fuel : nat) (content content' : string) :
  strip_loop fuel content = Some content' -> strip_exits content content'.
Proof.
  revert content. induction fuel as [|fuel IH]; intros content; [discriminate|].
  cbn [strip_loop]. destruct (Py.startswith content "<") eqn:E; cbn [negb].
  - intros [= <-]. apply strip_done, E.
  - intros H. apply strip_more; [exact E | apply IH, H].
Qed.

Lemma strip_exits_loop (content content' : string) :
  strip_exits content content' ->
  exists n, forall fuel, (n <= fuel)%nat -> strip_loop fuel content = Some content'.
Proof.
  induction 1 as [content H | content content' H _ [n IH]].
  - exists 1%nat. intros [|fuel] Hf; [lia|]. cbn [strip_loop]. rewrite H. reflexivity.
  - exists (S n). intros [|fuel] Hf; [lia|]. cbn [strip_loop]. rewrite H.
    cbn [negb]. apply IH. lia.
Qed.

Lemma strip_exits_startswith (content content' : string) :
  strip_exits content content' -> Py.startswith content' "<" = true.
Proof. induction 1; assumption. Qed.

Lemma strip_exits_functional (content c1 c2 : string) :
  strip_exits content c1 -> strip_exits content c2 -> c1 = c2.
Proof.
  intros H1. revert c2. induction H1 as [content H | content c1 H _ IH]; intros c2 H2.
  - inversion H2; subst; [reflexivity | congruence].
  - inversion H2; subst; [congruence | apply IH; assumption].
Qed.

(** Three characters other than [<] in front of a text that starts with
    [<] cost three iterations. *)
Lemma strip_loop_junk (a b c : ascii) (t : string) (fuel : nat) :
  Ascii.eqb a "<" = false -> Ascii.eqb b "<" = false -> Ascii.eqb c "<" = false ->
  strip_loop (3 + fuel) (String a (String b (String c t))) = strip_loop fuel t.
Proof.
  intros Ha Hb Hc. cbn [Nat.add strip_loop Py.slice_from_1].
  rewrite !startswith_lt_cons, Ha, Hb, Hc. reflexivity.
Qed.

Lemma strip_loop_ready (t : string) (fuel : nat) :
  Py.startswith t "<" = true -> strip_loop (S fuel) t = Some t.
Proof. intros H. cbn [strip_loop]. rewrite H. reflexivity. Qed.

Section Construction.

Context (fromstring : list Byte.byte -> outcome Element).

Lemma from_file_no_lt (content : string) :
  Py.contains content "<" = false ->
  forall fuel, from_file fromstring fuel content = None.
Proof.
  intros H fuel. unfold from_file. rewrite (strip_loop_no_lt _ H). reflexivity.
Qed.

(** C1 (the source fails it): on a text without [<] the loop of [from_file]
    never exits, so construction neither raises nor returns, whatever the
    fuel; no exit state of the loop exists. *)
Theorem from_file_hangs_without_lt (content : string) :
  Py.contains content "<" = false ->
  (forall fuel, from_file fromstring fuel content = None)
  /\ (forall content', ~ strip_exits content content').
Proof.
  intros H. split; [apply from_file_no_lt, H|].
  intros content' Hx. apply strip_exits_has_lt in Hx. congruence.
Qed.

(** C7 (amended): three characters other than [<] in front of a text [t]
    that starts with [<]: the loop exits with [t], construction ends for
    every fuel of at least four, with the outcome of construction from [t]
    alone: when [t] parses to a tree, both return an accessor that holds
    that tree; when the parser raises on [t], both raise the same. *)
Theorem from_file_junk_prefix (a b c : ascii) (t : string) :
  Py.startswith t "<" = true ->
  a <> "<"%char -> b <> "<"%char -> c <> "<"%char ->
  let content := String a (String b (String c t)) in
  strip_exits content t
  /\ forall fuel, (4 <= fuel)%nat ->
       from_file fromstring fuel content = from_file fromstring fuel t
       /\ from_file fromstring fuel content <> None
       /\ (forall tree, fromstring (Py.encode_utf8 t) = Return tree ->
             from_file fromstring fuel content = Some (Return (__init__ tree))
             /\ from_file fromstring fuel t = Some (Return (__init__ tree)))
       /\ (forall e, fromstring (Py.encode_utf8 t) = Raise e ->
             from_file fromstring fuel content = Some (Raise e)
             /\ from_file fromstring fuel t = Some (Raise e)).
Proof.
  intros Ht Ha%Ascii.eqb_neq Hb%Ascii.eqb_neq Hc%Ascii.eqb_neq content.
  split.
  - apply (strip_loop_exits 4).
    exact (eq_trans (strip_loop_junk a b c t 1 Ha Hb Hc) (strip_loop_ready t 0 Ht)).
  - intros fuel Hf.
    assert (E1 : strip_loop fuel content = Some t).
    { destruct fuel as [|[|[|[|fuel]]]]; try lia.
      exact (eq_trans (strip_loop_junk a b c t (S fuel) Ha Hb Hc)
                      (strip_loop_ready t fuel Ht)). }
    assert (E2 : strip_loop fuel t = Some t).
    { destruct fuel as [|fuel]; [lia|]. apply strip_loop_ready, Ht. }
    unfold from_file. rewrite E1, E2.
    split; [reflexivity|]. split; [|split].
    + destruct (fromstring (Py.encode_utf8 t)); discriminate.
    + intros tree ->. split; reflexivity.
    + intros e ->. split; reflexivity.
Qed.

End Construction.

Lemma from_file_hangs_without_lt_witness :
  (forall fuel, from_file sample_fromstring fuel "" = None)
  /\ (forall fuel, from_file sample_fromstring fuel "no markup here" = None).
Proof.
  split.
  - apply (from_file_hangs_without_lt sample_fromstring ""). reflexivity.
  - apply (from_file_hangs_without_lt sample_fromstring "no markup here"). reflexivity.
Defined.

(** C7 (as stated, refuted): [<x] starts with [<] and is not a well-formed
    document; the parser refuses it, and construction from three characters
    followed by it raises the parser's error: it does not succeed. *)
Lemma from_file_junk_prefix_malformed :
  Py.startswith "<x" "<" = true
  /\ sample_fromstring (Py.encode_utf8 "<x") = Raise ParseError
  /\ from_file sample_fromstring 4 (String "a" (String "b" (String "c" "<x")))
     = Some (Raise ParseError)
  /\ (forall accessor,
        from_file sample_fromstring 4 (String "a" (String "b" (String "c" "<x")))
        <> Some (Return accessor)).
Proof.
  split; [reflexivity|]. split; [reflexivity|]. split; [reflexivity|].
  intros accessor. vm_compute. discriminate.
Qed.

(** The byte order mark of a UTF-8 file read as Latin-1 is three characters
    in front of the document. *)
Lemma from_file_junk_prefix_witness :
  from_file sample_fromstring 4 (String "239" (String "187" (String "191" sample_text)))
  = Some (Return (__init__ (node "Return" []))).
Proof.
  refine (proj1 (proj1 (proj2 (proj2 (proj2
    (from_file_junk_prefix sample_fromstring "239" "187" "191" sample_text _ _ _ _)
    4%nat _))) (node "Return" []) _)).
  - reflexivity.
  - discriminate.
  - discriminate.
  - discriminate.
  - lia.
  - reflexivity.
Defined.

(** ** Lookups *)

Section Lookups.

Context (find_xpath : Element -> string -> gmap string string -> outcome (option Element))
        (int_max_str_digits : nat).


(** What the search of the qualified path gave decides [find_str]. *)
Lemma find_str_unfold (path : string) (self : Querier) :
  find_str find_xpath path self
  = (match find find_xpath (_tree self) (_add_namespace path) (_namespaces self) with
     | Raise e => Raise e
     | Return None => Return None
     | Return (Some e) => Return (text e)
     end, self).
Proof.
  unfold find_str, bind, attr, lift, ret.
  destruct (find _ _ _ _) as [[e|]|e]; reflexivity.
Qed.

Lemma find_int_unfold (path : string) (self : Querier) :
  find_int find_xpath int_max_str_digits path self
  = (match result (find_str find_xpath path) self with
     | Raise e => Raise e
     | Return None => Return None
     | Return (Some s) =>
         match Py.int int_max_str_digits s with
         | Some n => Return (Some n)
         | None => Raise ValueError
         end
     end, self).
Proof.
  unfold find_int, bind, result. rewrite find_str_unfold. cbn [fst].
  destruct (find _ _ _ _) as [[e|]|e]; try reflexivity.
  destruct (text e) as [s|]; [|reflexivity].
  destruct (Py.int _ s); reflexivity.
Qed.

Lemma find_float_unfold (path : string) (self : Querier) :
  find_float find_xpath path self
  = (match result (find_str find_xpath path) self with
     | Raise e => Raise e
     | Return None => Return None
     | Return (Some s) =>
         match Py.float s with
         | Some x => Return (Some x)
         | None => Raise ValueError
         end
     end, self).
Proof.
  unfold find_float, bind, result. rewrite find_str_unfold. cbn [fst].
  destruct (find _ _ _ _) as [[e|]|e]; try reflexivity.
  destruct (text e) as [s|]; [|reflexivity].
  destruct (Py.float s); reflexivity.
Qed.

Lemma find_str_found (path : string) (self : Querier) (e : Element) :
  find find_xpath (_tree self) (_add_namespace path) (_namespaces self) = Return (Some e) ->
  result (find_str find_xpath path) self = Return (text e).
Proof. intros H. unfold result. rewrite find_str_unfold, H. reflexivity. Qed.

Lemma find_str_missing (path : string) (self : Querier) :
  find find_xpath (_tree self) (_add_namespace path) (_namespaces self) = Return None ->
  result (find_str find_xpath path) self = Return None.
Proof. intros H. unfold result. rewrite find_str_unfold, H. reflexivity. Qed.

(** No lookup replaces [self]. *)
Lemma call_after (l : lookup) (self : Querier) : after (call find_xpath int_max_str_digits l) self = self.
Proof.
  unfold after. destruct l as [path|path|path]; cbn [call];
    unfold fmap_method, bind;
    rewrite ?find_str_unfold, ?find_int_unfold, ?find_float_unfold;
    match goal with |- snd (match ?o with _ => _ end) = _ => destruct o; reflexivity end.
Qed.

Lemma calls_after (ls : list lookup) (self : Querier) : snd (calls find_xpath int_max_str_digits ls self) = self.
Proof.
  revert self. induction ls as [|l ls IH]; intros self; [reflexivity|].
  cbn [calls].
  pose proof (call_after l self) as Hl. unfold after in Hl.
  destruct (call find_xpath int_max_str_digits l self) as [o self']. cbn [snd] in Hl. subst self'.
  specialize (IH self). destruct (calls find_xpath int_max_str_digits ls self) as [os self'']. exact IH.
Qed.

(** *** The search of a qualified path *)

Lemma qualify_tag_prefixed (segment : string) :
  qualify_tag {[ "efile" := "http://www.irs.gov/efile" ]} ("efile:" +:+ segment)
  = Return (efile segment).
Proof.
  unfold qualify_tag.
  change (Py.startswith ("efile:" +:+ segment) "{") with false.
  change (Py.partition_first ":" ("efile:" +:+ segment)) with (Some ("efile", segment)).
  cbv iota. rewrite lookup_singleton_eq. reflexivity.
Qed.

Lemma qualify_tags_prefixed (segments : list string) :
  qualify_tags {[ "efile" := "http://www.irs.gov/efile" ]}
    (map (fun t => "efile:" +:+ t) segments)
  = Return (map efile segments).
Proof.
  induction segments as [|seg segments IH]; [reflexivity|].
  cbn [map qualify_tags]. rewrite qualify_tag_prefixed, IH. reflexivity.
Qed.

Lemma plain_piece_prefixed (segment : string) :
  plain_piece ("efile:" +:+ segment) = simple_segment segment.
Proof. reflexivity. Qed.

Lemma plain_pieces_prefixed (segments : list string) :
  forallb plain_piece (map (fun t => "efile:" +:+ t) segments)
  = forallb simple_segment segments.
Proof.
  induction segments as [|seg segments IH]; [reflexivity|].
  cbn [map forallb]. rewrite plain_piece_prefixed, IH. reflexivity.
Qed.

Lemma endswith_star (s : string) :
  endswith s "}*" = true -> Py.contains s "*" = true.
Proof.
  induction s as [|c s IH]; [discriminate|].
  cbn [endswith]. intros [H|H]%orb_true_iff.
  - apply String.eqb_eq in H. rewrite H. reflexivity.
  - cbn [Py.contains]. rewrite (IH H). apply orb_true_r.
Qed.

Lemma simple_segment_no_star (segment : string) :
  simple_segment segment = true -> Py.contains segment "*" = false.
Proof.
  unfold simple_segment.
  induction segment as [|c s IH]; [reflexivity|].
  cbn [list_ascii_of_string forallb Py.contains].
  intros [[_ Hc]%andb_true_iff Hs]%andb_true_iff.
  rewrite (IH Hs), orb_false_r.
  apply negb_true_iff in Hc. cbn [Py.contains] in Hc.
  apply orb_false_iff in Hc as [Hc _].
  rewrite Ascii.eqb_sym. exact Hc.
Qed.

Lemma efile_not_wildcard (segment : string) :
  simple_segment segment = true -> _is_wildcard_tag (efile segment) = false.
Proof.
  intros H. unfold _is_wildcard_tag.
  change (Py.startswith (efile segment) "{*}") with false. cbn [orb].
  destruct (endswith (efile segment) "}*") eqn:E; [|reflexivity].
  apply endswith_star in E. unfold efile in E.
  rewrite contains_append, (simple_segment_no_star _ H) in E. discriminate.
Qed.

Lemma efile_no_wildcards (segments : list string) :
  forallb simple_segment segments = true ->
  existsb _is_wildcard_tag (map efile segments) = false.
Proof.
  induction segments as [|seg segments IH]; [reflexivity|].
  cbn [map forallb existsb]. intros [H1 H2]%andb_true_iff.
  rewrite (efile_not_wildcard _ H1), (IH H2). reflexivity.
Qed.

(** On a path whose segments are simple, the search of the qualified path
    is a walk down the tree: below the element searched, the children named
    [ReturnData], below them the children named by the first segment, and so
    on, each in the [efile] namespace; the first element reached is found. *)
Theorem find_qualified_walk (tree : Element) (path : string) :
  forallb simple_segment (Py.split "/" (Py.lstrip "/" path)) = true ->
  find find_xpath tree (_add_namespace path) {[ "efile" := "http://www.irs.gov/efile" ]}
  = Return (head (select_steps tree
                    (map efile ("ReturnData" :: Py.split "/" (Py.lstrip "/" path))))).
Proof.
  intros H. unfold find. rewrite add_namespace_segments.
  change ("efile:ReturnData" :: map (fun t => "efile:" +:+ t) (Py.split "/" (Py.lstrip "/" path)))
    with (map (fun t => "efile:" +:+ t) ("ReturnData" :: Py.split "/" (Py.lstrip "/" path))).
  assert (H' : forallb simple_segment ("ReturnData" :: Py.split "/" (Py.lstrip "/" path)) = true)
    by (cbn [forallb]; rewrite H; reflexivity).
  cbv zeta.
  rewrite plain_pieces_prefixed, H', qualify_tags_prefixed, (efile_no_wildcards _ H').
  reflexivity.
Qed.

(** C2 (amended): when the qualified path matches an element, [find_str]
    returns the text stored in it, whatever it is: the empty string when the
    stored text is the empty string, and [None], the value that also stands
    for "no element", when the element has no text. *)
Theorem find_str_returns_stored_text (path : string) (self : Querier) (e : Element) :
  find find_xpath (_tree self) (_add_namespace path) (_namespaces self) = Return (Some e) ->
  result (find_str find_xpath path) self = Return (text e)
  /\ (text e = Some EmptyString -> result (find_str find_xpath path) self = Return (Some EmptyString))
  /\ (text e = None -> result (find_str find_xpath path) self = Return None).
Proof.
  intros H. rewrite (find_str_found _ _ _ H).
  split; [reflexivity|]. split; intros ->; reflexivity.
Qed.

(** C4: when the qualified path matches an element whose text [int] (or
    [float]) refuses, [find_int] (or [find_float]) raises the conversion
    error; it returns neither the absent result nor zero. *)
Theorem typed_lookup_raises_on_bad_text (path : string) (self : Querier) (e : Element) (s : string) :
  find find_xpath (_tree self) (_add_namespace path) (_namespaces self) = Return (Some e) ->
  text e = Some s ->
  (Py.int int_max_str_digits s = None ->
     result (find_int find_xpath int_max_str_digits path) self = Raise ValueError)
  /\ (Py.float s = None ->
        result (find_float find_xpath path) self = Raise ValueError).
Proof.
  intros H Ht.
  pose proof (find_str_found _ _ _ H) as Hs. rewrite Ht in Hs.
  split; intros Hn; unfold result.
  - rewrite find_int_unfold. cbn [fst]. rewrite Hs, Hn. reflexivity.
  - rewrite find_float_unfold. cbn [fst]. rewrite Hs, Hn. reflexivity.
Qed.

(** C5: when the qualified path matches no element, the three lookups
    return the absent result and do not raise. *)
Theorem lookups_absent_on_miss (path : string) (self : Querier) :
  find find_xpath (_tree self) (_add_namespace path) (_namespaces self) = Return None ->
  result (find_str find_xpath path) self = Return None
  /\ result (find_int find_xpath int_max_str_digits path) self = Return None
  /\ result (find_float find_xpath path) self = Return None.
Proof.
  intros H. pose proof (find_str_missing _ _ H) as Hs.
  split; [exact Hs|]. unfold result.
  rewrite find_int_unfold, find_float_unfold. cbn [fst]. rewrite Hs.
  split; reflexivity.
Qed.

(** C6 (amended): when the qualified path matches an element whose text
    [int] accepts, [find_int] returns the integer read from it, and so it
    returns [n] when the text is the decimal notation of [n]; on a
    document whose root element has a [ReturnData] child that holds a
    [TotalEmployeeCnt] element with text [19], [find_int find_xpath int_max_str_digits "/TotalEmployeeCnt"]
    returns 19. *)
Theorem find_int_returns_parsed_integer :
  (forall (path : string) (self : Querier) (e : Element) (s : string) (n : Z),
     find find_xpath (_tree self) (_add_namespace path) (_namespaces self) = Return (Some e) ->
     text e = Some s ->
     Py.int int_max_str_digits s = Some n ->
     result (find_int find_xpath int_max_str_digits path) self = Return (Some n))
  /\ (forall (path : string) (self : Querier) (e : Element) (n : Z),
        find find_xpath (_tree self) (_add_namespace path) (_namespaces self) = Return (Some e) ->
        text e = Some (Py.str_of_int n) ->
        Py.exceeds_digit_cap int_max_str_digits (Py.digits_of_int n) = false ->
        result (find_int find_xpath int_max_str_digits path) self = Return (Some n))
  /\ result (find_int find_xpath int_max_str_digits "/TotalEmployeeCnt") (__init__ filing) = Return (Some 19).
Proof.
  assert (Hgen : forall path self e s n,
             find find_xpath (_tree self) (_add_namespace path) (_namespaces self) = Return (Some e) ->
             text e = Some s ->
             Py.int int_max_str_digits s = Some n ->
             result (find_int find_xpath int_max_str_digits path) self = Return (Some n)).
  { intros path self e s n H Ht Hn.
    pose proof (find_str_found _ _ _ H) as Hs. rewrite Ht in Hs.
    unfold result. rewrite find_int_unfold. cbn [fst]. rewrite Hs, Hn. reflexivity. }
  split; [exact Hgen|]. split.
  - intros path self e n H Ht Hcap.
    exact (Hgen path self e _ n H Ht (int_str_roundtrip _ _ Hcap)).
  - vm_compute. reflexivity.
Qed.

(** C8: an accessor built by the constructor holds the one-entry namespace
    mapping; after any sequence of lookups it is the accessor it was, with
    the same mapping and the same tree, and [find_str] returns on it what it
    returned before. *)
Theorem accessor_never_mutated (tree : Element) (ls : list lookup) (path : string) :
  let self := __init__ tree in
  let self' := snd (calls find_xpath int_max_str_digits ls self) in
  _namespaces self = {[ "efile" := "http://www.irs.gov/efile" ]}
  /\ self' = self
  /\ _namespaces self' = {[ "efile" := "http://www.irs.gov/efile" ]}
  /\ _tree self' = tree
  /\ after (find_str find_xpath path) self = self
  /\ result (find_str find_xpath path) self' = result (find_str find_xpath path) self
  /\ result (find_str find_xpath path) (after (find_str find_xpath path) self) = result (find_str find_xpath path) self.
Proof.
  intros self self'. unfold self'. rewrite calls_after.
  assert (Ha : after (find_str find_xpath path) self = self).
  { unfold after. rewrite find_str_unfold. reflexivity. }
  rewrite Ha. repeat split; reflexivity.
Qed.

End Lookups.

(** ** The properties on the sample filing *)

(** C2 (as stated, refuted): [WebsiteAddressTxt] is in the filing and has no
    text; [find_str] returns [None] for it, not the empty string, and that
    is what it returns for an element that is not there. *)
Lemma find_str_conflates_empty_element :
  find no_xpath filing (_add_namespace "/IRS990/WebsiteAddressTxt")
       (_namespaces (__init__ filing))
  = Return (Some (leaf "WebsiteAddressTxt" None))
  /\ result (find_str no_xpath "/IRS990/WebsiteAddressTxt") (__init__ filing)
     <> Return (Some EmptyString)
  /\ result (find_str no_xpath "/IRS990/WebsiteAddressTxt") (__init__ filing)
     = result (find_str no_xpath "/IRS990/NoSuchElement") (__init__ filing).
Proof.
  split; [vm_compute; reflexivity|].
  split; [vm_compute; discriminate | vm_compute; reflexivity].
Qed.

Lemma find_str_returns_stored_text_witness :
  result (find_str no_xpath "/IRS990/FormationYr") (__init__ filing) = Return (Some "2004").
Proof.
  apply (proj1 (find_str_returns_stored_text no_xpath "/IRS990/FormationYr"
                  (__init__ filing) (leaf "FormationYr" (Some "2004")) eq_refl)).
Defined.

Lemma typed_lookup_raises_on_bad_text_witness :
  result (find_int no_xpath 4300 "/IRS990/PrincipalOfficerNm") (__init__ filing)
  = Raise ValueError
  /\ result (find_float no_xpath "/IRS990/PrincipalOfficerNm") (__init__ filing)
     = Raise ValueError.
Proof.
  pose proof (typed_lookup_raises_on_bad_text no_xpath 4300 "/IRS990/PrincipalOfficerNm"
                (__init__ filing) (leaf "PrincipalOfficerNm" (Some "N/A")) "N/A"
                eq_refl eq_refl) as [Hi Hf].
  split; [apply Hi | apply Hf]; reflexivity.
Defined.

Lemma lookups_absent_on_miss_witness :
  result (find_str no_xpath "/IRS990/NoSuchElement") (__init__ filing) = Return None
  /\ result (find_int no_xpath 4300 "/IRS990/NoSuchElement") (__init__ filing) = Return None
  /\ result (find_float no_xpath "/IRS990/NoSuchElement") (__init__ filing) = Return None.
Proof.
  apply (lookups_absent_on_miss no_xpath 4300 "/IRS990/NoSuchElement" (__init__ filing)).
  reflexivity.
Defined.

(** C6 (as stated, refuted): when [ReturnData] is the root element of the
    document, the search for [efile:ReturnData/...] starts below it and
    finds nothing: [find_int "/TotalEmployeeCnt"] returns the absent result,
    not 19. *)
Lemma find_int_return_data_at_root :
  result (find_int no_xpath 4300 "/TotalEmployeeCnt") (__init__ return_data_at_root)
  = Return None
  /\ result (find_int no_xpath 4300 "/TotalEmployeeCnt") (__init__ return_data_at_root)
     <> Return (Some 19).
Proof. split; [vm_compute; reflexivity | vm_compute; discriminate]. Qed.

Lemma find_int_returns_parsed_integer_witness :
  result (find_int no_xpath 4300 "/IRS990/TotalEmployeeCnt") (__init__ filing)
  = Return (Some 19).
Proof.
  apply (proj1 (find_int_returns_parsed_integer no_xpath 4300)
           "/IRS990/TotalEmployeeCnt" (__init__ filing)
           (leaf "TotalEmployeeCnt" (Some "19")) "19" 19); reflexivity.
Defined.

(* ===================================================================== *)
(** * Part III: further properties of construction and lookup *)
(* ===================================================================== *)

(** ** Construction *)

Lemma strip_loop_skips (junk t : string) (fuel : nat) :
  Py.contains junk "<" = false ->
  strip_loop (String.length junk + fuel) (junk +:+ t) = strip_loop fuel t.
Proof.
  induction junk as [|c junk IH]; intros H; [reflexivity|].
  apply contains_cons_false in H as [E H].
  rewrite append_cons. cbn [String.length Nat.add strip_loop Py.slice_from_1].
  rewrite startswith_lt_cons, E. cbn [negb]. apply IH, H.
Qed.

Lemma strip_loop_short (junk t : string) (fuel : nat) :
  Py.contains junk "<" = false ->
  (fuel <= String.length junk)%nat ->
  strip_loop fuel (junk +:+ t) = None.
Proof.
  revert fuel. induction junk as [|c junk IH]; intros fuel H Hf.
  - cbn [String.length] in Hf. replace fuel with 0%nat by lia. reflexivity.
  - destruct fuel as [|fuel]; [reflexivity|].
    apply contains_cons_false in H as [E H]. cbn [String.length] in Hf.
    rewrite append_cons. cbn [strip_loop Py.slice_from_1].
    rewrite startswith_lt_cons, E. cbn [negb]. apply IH; [exact H | lia].
Qed.

(** A text with [<] in it is some characters without [<] followed by a text
    that starts with [<]. *)
Lemma split_at_first_lt (content : string) :
  Py.contains content "<" = true ->
  exists junk t, content = junk +:+ t
                 /\ Py.contains junk "<" = false /\ Py.startswith t "<" = true.
Proof.
  induction content as [|c s IH]; [discriminate|].
  destruct (Ascii.eqb c "<") eqn:E.
  - intros _. exists EmptyString, (String c s).
    repeat split. rewrite startswith_lt_cons. exact E.
  - cbn [Py.contains]. rewrite Ascii.eqb_sym, E. cbn [orb]. intros H.
    destruct (IH H) as (junk & t & -> & Hj & Ht).
    exists (String c junk), t. repeat split; [|exact Ht].
    cbn [Py.contains]. rewrite Ascii.eqb_sym, E, Hj. reflexivity.
Qed.

(** The loop on [junk] followed by [t]: one test per character of [junk],
    one more to leave. *)
Lemma strip_loop_first_lt (junk t : string) (fuel : nat) :
  Py.contains junk "<" = false ->
  Py.startswith t "<" = true ->
  strip_loop fuel (junk +:+ t)
  = if (fuel <=? String.length junk)%nat then None else Some t.
Proof.
  intros Hj Ht. destruct (Nat.leb_spec fuel (String.length junk)) as [Hf|Hf].
  - apply strip_loop_short; assumption.
  - replace fuel with (String.length junk + S (fuel - S (String.length junk)))%nat by lia.
    rewrite (strip_loop_skips _ _ _ Hj). apply strip_loop_ready, Ht.
Qed.

Lemma encode_starts_with_lt (content : string) :
  Py.startswith content "<" = true ->
  exists bytes, Py.encode_utf8 content = Byte.x3c :: bytes.
Proof.
  destruct content as [|c s]; [discriminate|].
  rewrite startswith_lt_cons. intros ->%Ascii.eqb_eq.
  eexists. reflexivity.
Qed.

Section ConstructionMore.

Context (fromstring : list Byte.byte -> outcome Element).

(** X1: [from_file] hands the parser the text from its first [<] on: for
    characters [junk] without [<] in front of a text [t] that starts with
    [<], the loop tests its condition once per character of [junk] and once
    more; construction then raises what the parser raises on [t], or returns
    the accessor of the tree the parser returns. *)
Theorem from_file_parses_from_first_lt (junk t : string) (fuel : nat) :
  Py.contains junk "<" = false ->
  Py.startswith t "<" = true ->
  ((fuel <= String.length junk)%nat -> from_file fromstring fuel (junk +:+ t) = None)
  /\ ((String.length junk < fuel)%nat ->
        from_file fromstring fuel (junk +:+ t)
        = Some (match fromstring (Py.encode_utf8 t) with
                | Raise e => Raise e
                | Return tree => Return (__init__ tree)
                end)).
Proof.
  intros Hj Ht. unfold from_file. rewrite (strip_loop_first_lt _ _ _ Hj Ht).
  split; intros Hf.
  - apply Nat.leb_le in Hf. rewrite Hf. reflexivity.
  - apply Nat.leb_gt in Hf. rewrite Hf.
    destruct (fromstring (Py.encode_utf8 t)); reflexivity.
Qed.

(** X2: construction comes to an end, with some fuel, exactly for the texts
    that hold a [<]; fuel beyond what the loop needs does not change the
    outcome. *)
Theorem from_file_ends_iff_lt (content : string) :
  ((exists fuel, from_file fromstring fuel content <> None)
   <-> Py.contains content "<" = true)
  /\ (forall fuel fuel' o,
        from_file fromstring fuel content = Some o ->
        (fuel <= fuel')%nat ->
        from_file fromstring fuel' content = Some o).
Proof.
  split; [split|].
  - intros [fuel Hf]. destruct (Py.contains content "<") eqn:E; [reflexivity|].
    exfalso. apply Hf, from_file_no_lt, E.
  - intros H. destruct (split_at_first_lt _ H) as (junk & t & -> & Hj & Ht).
    exists (S (String.length junk)). unfold from_file.
    rewrite (strip_loop_first_lt _ _ _ Hj Ht).
    replace (S (String.length junk) <=? String.length junk)%nat with false
      by (symmetry; apply Nat.leb_gt; lia).
    destruct (fromstring (Py.encode_utf8 t)); discriminate.
  - intros fuel fuel' o Hf Hle.
    destruct (Py.contains content "<") eqn:E;
      [|rewrite (from_file_no_lt _ _ E) in Hf; discriminate].
    destruct (split_at_first_lt _ E) as (junk & t & -> & Hj & Ht).
    unfold from_file in Hf |- *.
    rewrite (strip_loop_first_lt _ _ _ Hj Ht) in Hf.
    rewrite (strip_loop_first_lt _ _ _ Hj Ht).
    destruct (Nat.leb_spec fuel (String.length junk)) as [Hs|Hs]; [discriminate Hf|].
    replace (fuel' <=? String.length junk)%nat with false
      by (symmetry; apply Nat.leb_gt; lia).
    exact Hf.
Qed.

(** X3: the parser is only ever given bytes that start with [<]: two
    parsers that agree on such bytes give the same construction, on every
    text. *)
Theorem from_file_parser_sees_lt (other : list Byte.byte -> outcome Element) :
  (forall bytes, fromstring (Byte.x3c :: bytes) = other (Byte.x3c :: bytes)) ->
  forall fuel content, from_file fromstring fuel content = from_file other fuel content.
Proof.
  intros H fuel content. unfold from_file.
  destruct (strip_loop fuel content) as [content'|] eqn:E; [|reflexivity].
  apply strip_loop_exits, strip_exits_startswith, encode_starts_with_lt in E.
  destruct E as [bytes ->]. rewrite H. reflexivity.
Qed.

End ConstructionMore.

Lemma from_file_parses_from_first_lt_witness :
  from_file sample_fromstring 2 ("x" +:+ sample_text) = Some (Return (__init__ (node "Return" [])))
  /\ from_file sample_fromstring 1 ("x" +:+ sample_text) = None.
Proof.
  split.
  - apply (proj2 (from_file_parses_from_first_lt sample_fromstring "x" sample_text 2
                    eq_refl eq_refl)). cbn. lia.
  - apply (proj1 (from_file_parses_from_first_lt sample_fromstring "x" sample_text 1
                    eq_refl eq_refl)). cbn. lia.
Defined.

Lemma from_file_ends_iff_lt_witness :
  from_file sample_fromstring 7 sample_text = Some (Return (__init__ (node "Return" []))).
Proof.
  apply (proj2 (from_file_ends_iff_lt sample_fromstring sample_text) 1%nat 7%nat);
    [reflexivity | lia].
Defined.

Lemma from_file_parser_sees_lt_witness :
  from_file sample_fromstring 5 "ab<x" = from_file lenient_fromstring 5 "ab<x".
Proof.
  apply (from_file_parser_sees_lt sample_fromstring lenient_fromstring).
  intros bytes. reflexivity.
Defined.


(** ** Lookups *)

Lemma join_cons_head (sep : string) (c : ascii) (piece : string) (pieces : list string) :
  Py.join sep (String c piece :: pieces) = String c (Py.join sep (piece :: pieces)).
Proof. destruct pieces; reflexivity. Qed.

(** Splitting and joining again gives the text back. *)
Lemma join_split (sep : ascii) (s : string) :
  Py.join (String sep EmptyString) (Py.split sep s) = s.
Proof.
  induction s as [|c s IH]; [reflexivity|].
  cbn [Py.split]. destruct (Ascii.eqb c sep) eqn:E.
  - apply Ascii.eqb_eq in E. subst c.
    destruct (split_cons sep s) as (piece & pieces & Hs). rewrite Hs in IH |- *.
    change (Py.join (String sep EmptyString) (EmptyString :: piece :: pieces))
      with (String sep (Py.join (String sep EmptyString) (piece :: pieces))).
    rewrite IH. reflexivity.
  - destruct (split_cons sep s) as (piece & pieces & Hs). rewrite Hs in IH |- *.
    rewrite join_cons_head, IH. reflexivity.
Qed.

Lemma prefixed_inj (a b : list string) :
  map (fun t => "efile:" +:+ t) a = map (fun t => "efile:" +:+ t) b -> a = b.
Proof.
  revert b. induction a as [|x a IH]; intros [|y b] H; try discriminate; [reflexivity|].
  cbn [map] in H. injection H as Hx Hab.
  f_equal; [|apply IH, Hab].
  exact Hx.
Qed.

Lemma add_namespace_repeat (n : nat) (path : string) :
  _add_namespace (Py.repeat "/" n +:+ path) = _add_namespace path.
Proof. unfold _add_namespace. rewrite lstrip_repeat. reflexivity. Qed.

Lemma select_steps_snoc (elem : Element) (tags : list string) (t : string) :
  select_steps elem (tags ++ [t]) = select_child t (select_steps elem tags).
Proof. unfold select_steps. rewrite fold_left_app. reflexivity. Qed.

Lemma select_child_tag (t : string) (result : list Element) (e : Element) :
  Py.startswith t "{}" = false ->
  In e (select_child t result) -> tag e = t.
Proof.
  intros Ht. unfold select_child. rewrite Ht.
  intros (elem & _ & He)%in_flat_map.
  apply filter_In in He as [_ He]. apply String.eqb_eq, He.
Qed.

Lemma select_child_nil (t : string) : select_child t [] = [].
Proof. reflexivity. Qed.

Lemma select_steps_from_nil (tags : list string) :
  fold_left (fun result t => select_child t result) tags [] = [].
Proof. induction tags as [|t tags IH]; [reflexivity | exact IH]. Qed.

Section LookupsMore.

Context (find_xpath : Element -> string -> gmap string string -> outcome (option Element))
        (int_max_str_digits : nat).

(** The lookups see the caller's path through its qualified form only. *)
Lemma lookups_by_qualified_path (p q : string) (self : Querier) :
  _add_namespace p = _add_namespace q ->
  result (find_str find_xpath p) self = result (find_str find_xpath q) self
  /\ result (find_int find_xpath int_max_str_digits p) self
     = result (find_int find_xpath int_max_str_digits q) self
  /\ result (find_float find_xpath p) self = result (find_float find_xpath q) self.
Proof.
  intros H.
  assert (Hs : result (find_str find_xpath p) self = result (find_str find_xpath q) self).
  { unfold result. rewrite !find_str_unfold, H. reflexivity. }
  split; [exact Hs|]. unfold result in *.
  rewrite !find_int_unfold, !find_float_unfold. cbn [fst]. unfold result. rewrite Hs.
  split; reflexivity.
Qed.

(** X5: on a path whose segments are simple (no white space and none of
    the characters ElementPath gives a meaning to), [find_str] on a fresh
    accessor walks down the tree, from the children of the root named
    [ReturnData] through the children named by each segment, all in the
    [efile] namespace, and returns the text of the first element it reaches,
    or the absent result when it reaches none.  It does not raise. *)
Theorem find_str_walks_the_tree (tree : Element) (path : string) :
  forallb simple_segment (Py.split "/" (Py.lstrip "/" path)) = true ->
  result (find_str find_xpath path) (__init__ tree)
  = Return (match head (select_steps tree
                          (map efile ("ReturnData" :: Py.split "/" (Py.lstrip "/" path)))) with
            | Some e => text e
            | None => None
            end).
Proof.
  intros H. unfold result. rewrite find_str_unfold. cbn [fst __init__ _tree _namespaces].
  rewrite (find_qualified_walk find_xpath tree path H).
  destruct (head _); reflexivity.
Qed.

(** X6: on a path whose segments are simple, an element the lookup finds
    is named by the last segment of the path, in the [efile] namespace;
    an element of another namespace, or of another name, is never
    returned. *)
Theorem found_element_named_by_last_segment
    (tree : Element) (path segment : string) (e : Element) :
  forallb simple_segment (Py.split "/" (Py.lstrip "/" path)) = true ->
  last (Py.split "/" (Py.lstrip "/" path)) = Some segment ->
  find find_xpath (_tree (__init__ tree)) (_add_namespace path) (_namespaces (__init__ tree))
  = Return (Some e) ->
  tag e = efile segment.
Proof.
  intros H Hl. cbn [__init__ _tree _namespaces].
  rewrite (find_qualified_walk find_xpath tree path H).
  apply last_Some in Hl as [front Hl]. rewrite Hl.
  change (map efile ("ReturnData" :: front ++ [segment]))
    with (map efile (("ReturnData" :: front) ++ [segment])).
  rewrite map_app. cbn [map]. rewrite select_steps_snoc.
  intros [= He].
  apply (select_child_tag (efile segment)
           (select_steps tree (efile "ReturnData" :: map efile front))); [reflexivity|].
  destruct (select_child _ _) as [|x l]; [discriminate|].
  injection He as ->. left. reflexivity.
Qed.

(** X7: leading slashes of the caller's path make no difference to any
    lookup, however many they are. *)
Theorem lookups_ignore_leading_slashes (n : nat) (path : string) (self : Querier) :
  result (find_str find_xpath (Py.repeat "/" n +:+ path)) self
  = result (find_str find_xpath path) self
  /\ result (find_int find_xpath int_max_str_digits (Py.repeat "/" n +:+ path)) self
     = result (find_int find_xpath int_max_str_digits path) self
  /\ result (find_float find_xpath (Py.repeat "/" n +:+ path)) self
     = result (find_float find_xpath path) self.
Proof. apply lookups_by_qualified_path, add_namespace_repeat. Qed.

(** X8: a typed lookup returns the absent result exactly when [find_str]
    does: for no element, and for an element without text; text that is
    there is never turned into the absent result. *)
Theorem typed_lookups_absent_iff (path : string) (self : Querier) :
  (result (find_int find_xpath int_max_str_digits path) self = Return None
   <-> result (find_str find_xpath path) self = Return None)
  /\ (result (find_float find_xpath path) self = Return None
      <-> result (find_str find_xpath path) self = Return None).
Proof.
  unfold result at 1 3. rewrite find_int_unfold, find_float_unfold. cbn [fst].
  destruct (result (find_str find_xpath path) self) as [[s|]|e].
  - destruct (Py.int _ s), (Py.float s); split; split; discriminate.
  - split; split; reflexivity.
  - split; split; discriminate.
Qed.

(** X10: lookups do not interfere: in any sequence of lookups on one
    accessor, each returns or raises what it would if it were the only
    one. *)
Theorem calls_are_independent (ls : list lookup) (self : Querier) :
  fst (calls find_xpath int_max_str_digits ls self)
  = map (fun l => result (call find_xpath int_max_str_digits l) self) ls.
Proof.
  induction ls as [|l ls IH]; [reflexivity|].
  cbn [calls map].
  pose proof (call_after find_xpath int_max_str_digits l self) as Ha.
  unfold after in Ha. unfold result at 1.
  destruct (call find_xpath int_max_str_digits l self) as [o self'].
  cbn [snd] in Ha. subst self'.
  destruct (calls find_xpath int_max_str_digits ls self) as [os self''].
  cbn [fst] in IH |- *. rewrite IH. reflexivity.
Qed.

(** X11: when no child of the root is a [ReturnData] element of the
    [efile] namespace, every lookup on a path with simple segments returns
    the absent result. *)
Theorem lookups_absent_without_return_data (tree : Element) (path : string) :
  forallb simple_segment (Py.split "/" (Py.lstrip "/" path)) = true ->
  forallb (fun child => negb (String.eqb (tag child) (efile "ReturnData"))) (children tree) = true ->
  result (find_str find_xpath path) (__init__ tree) = Return None
  /\ result (find_int find_xpath int_max_str_digits path) (__init__ tree) = Return None
  /\ result (find_float find_xpath path) (__init__ tree) = Return None.
Proof.
  intros H Hc.
  assert (Hs : result (find_str find_xpath path) (__init__ tree) = Return None).
  { unfold result. rewrite find_str_unfold. cbn [fst __init__ _tree _namespaces].
    rewrite (find_qualified_walk find_xpath tree path H).
    cbn [map]. unfold select_steps. cbn [fold_left].
    replace (select_child (efile "ReturnData") [tree]) with (@nil Element).
    - rewrite select_steps_from_nil. reflexivity.
    - unfold select_child.
      change (Py.startswith (efile "ReturnData") "{}") with false. cbv iota.
      cbn [flat_map]. rewrite app_nil_r.
      induction (children tree) as [|child kids IH]; [reflexivity|].
      cbn [forallb] in Hc. apply andb_true_iff in Hc as [Hc1 Hc2].
      cbn [List.filter]. apply negb_true_iff in Hc1. rewrite Hc1. apply IH, Hc2. }
  split; [exact Hs|]. unfold result.
  rewrite find_int_unfold, find_float_unfold. cbn [fst]. rewrite Hs. split; reflexivity.
Qed.

End LookupsMore.

(** X12: the qualified path determines the caller's path up to its leading
    slashes: two paths qualify to the same search path exactly when they
    are equal once their leading slashes are removed. *)
Theorem add_namespace_injective (p q : string) :
  _add_namespace p = _add_namespace q <-> Py.lstrip "/" p = Py.lstrip "/" q.
Proof.
  split.
  - intros H. apply (f_equal (Py.split "/")) in H.
    rewrite !add_namespace_segments in H. injection H as H.
    apply prefixed_inj in H. apply (f_equal (Py.join "/")) in H.
    rewrite !(join_split "/") in H. exact H.
  - intros H. unfold _add_namespace. rewrite H. reflexivity.
Qed.

Lemma find_str_walks_the_tree_witness :
  result (find_str no_xpath "//IRS990/FormationYr") (__init__ filing) = Return (Some "2004").
Proof.
  apply (find_str_walks_the_tree no_xpath filing "//IRS990/FormationYr"). reflexivity.
Defined.

Lemma found_element_named_by_last_segment_witness :
  tag (leaf "FormationYr" (Some "2004")) = efile "FormationYr".
Proof.
  apply (found_element_named_by_last_segment no_xpath filing "/IRS990/FormationYr"
           "FormationYr" (leaf "FormationYr" (Some "2004"))); reflexivity.
Defined.


Lemma lookups_absent_without_return_data_witness :
  result (find_str no_xpath "/TotalEmployeeCnt") (__init__ return_data_at_root) = Return None
  /\ result (find_int no_xpath 4300 "/TotalEmployeeCnt") (__init__ return_data_at_root)
     = Return None
  /\ result (find_float no_xpath "/TotalEmployeeCnt") (__init__ return_data_at_root)
     = Return None.
Proof.
  apply (lookups_absent_without_return_data no_xpath 4300 return_data_at_root
           "/TotalEmployeeCnt"); reflexivity.
Defined.

(** ** Integer text is float text *)

Lemma digit_not_underscore (c : ascii) (d : Z) :
  Py.digit_value c = Some d -> Ascii.eqb c "_" = false.
Proof.
  intros H. destruct (Ascii.eqb c "_") eqn:E; [|reflexivity].
  apply Ascii.eqb_eq in E. subst c. discriminate H.
Qed.

Lemma digit_not_space (c : ascii) (d : Z) :
  Py.digit_value c = Some d -> Py.is_space c = false.
Proof.
  unfold Py.digit_value, Py.is_space. cbv zeta.
  destruct ((48 <=? N_of_ascii c) && (N_of_ascii c <=? 57))%N eqn:E; [|discriminate].
  intros _. apply andb_true_iff in E as [E1 E2].
  apply N.leb_le in E1, E2.
  repeat (apply orb_false_iff; split);
    try (apply andb_false_iff; right); try apply N.leb_gt; try apply N.eqb_neq; lia.
Qed.

Lemma digit_bounds (c : ascii) (d : Z) :
  Py.digit_value c = Some d -> 0 <= d <= 9.
Proof.
  unfold Py.digit_value. cbv zeta.
  destruct ((48 <=? N_of_ascii c) && (N_of_ascii c <=? 57))%N eqn:E; [|discriminate].
  intros [= <-]. apply andb_true_iff in E as [E1 E2].
  apply N.leb_le in E1, E2. lia.
Qed.

Lemma rstrip_cons (c : ascii) (s : string) :
  Py.is_space c = false -> Py.rstrip_spaces (String c s) = String c (Py.rstrip_spaces s).
Proof.
  intros H. cbn [Py.rstrip_spaces]. rewrite H. destruct (Py.rstrip_spaces s); reflexivity.
Qed.

Lemma rstrip_all_spaces (s : string) :
  Py.skip_spaces s = EmptyString -> Py.rstrip_spaces s = EmptyString.
Proof.
  induction s as [|c s IH]; [reflexivity|].
  cbn [Py.skip_spaces Py.rstrip_spaces].
  destruct (Py.is_space c); [|discriminate].
  intros H. rewrite (IH H). reflexivity.
Qed.

(** What the digit scan of [int] accepts, the underscore check of [float]
    lets through, and the digit run of [float] reads to the same value. *)
Lemma scan_digits_as_float (s : string) :
  forall (after_underscore : bool) (k : nat) (acc : Z) (prev : ascii)
         (m : Z) (k' : nat) (rest : string),
    Py.scan_digits s after_underscore k acc = Some (m, k', rest) ->
    Py.skip_spaces rest = EmptyString ->
    (if after_underscore then prev = "_"%char else Py.is_digit prev = true) ->
    0 <= acc ->
    exists literal,
      Py.drop_underscores prev (Py.rstrip_spaces s) = Some literal
      /\ Py.take_digits literal k acc = (m, k', EmptyString)
      /\ (k <= k')%nat /\ 0 <= m.
Proof.
  induction s as [|c s IH]; intros ua k acc prev m k' rest Hscan Hrest Hprev Hacc.
  - cbn [Py.scan_digits] in Hscan. destruct ua; [discriminate|].
    injection Hscan as <- <- <-. exists EmptyString.
    cbn [Py.rstrip_spaces Py.drop_underscores Py.take_digits].
    unfold Py.is_digit in Hprev. destruct (Py.digit_value prev) as [d|] eqn:Ed; [|discriminate].
    rewrite (digit_not_underscore _ _ Ed). repeat split; [lia | exact Hacc].
  - cbn [Py.scan_digits] in Hscan.
    destruct (Py.digit_value c) as [d|] eqn:Ec.
    + pose proof (digit_bounds _ _ Ec) as Hd.
      destruct (IH false (S k) (10 * acc + d) c m k' rest Hscan Hrest) as (lit & Hl & Ht & Hk & Hm);
        [unfold Py.is_digit; rewrite Ec; reflexivity | lia |].
      exists (String c lit).
      rewrite (rstrip_cons _ _ (digit_not_space _ _ Ec)).
      cbn [Py.drop_underscores Py.take_digits].
      rewrite (digit_not_underscore _ _ Ec). cbv iota.
      unfold Py.is_digit. rewrite Ec. cbn [negb]. rewrite andb_false_r, Hl.
      repeat split; [exact Ht | lia | exact Hm].
    + destruct (Ascii.eqb c "_") eqn:Eu.
      * destruct ua; [discriminate|].
        apply Ascii.eqb_eq in Eu. subst c.
        destruct (IH true k acc "_"%char m k' rest Hscan Hrest eq_refl Hacc)
          as (lit & Hl & Ht & Hk & Hm).
        exists lit. rewrite rstrip_cons by reflexivity.
        cbn [Py.drop_underscores]. rewrite Ascii.eqb_refl, Hprev.
        repeat split; assumption.
      * destruct ua; [discriminate|].
        injection Hscan as <- <- <-. exists EmptyString.
        rewrite (rstrip_all_spaces _ Hrest).
        cbn [Py.drop_underscores Py.take_digits].
        unfold Py.is_digit in Hprev.
        destruct (Py.digit_value prev) as [d|] eqn:Ed; [|discriminate].
        rewrite (digit_not_underscore _ _ Ed). repeat split; [lia | exact Hacc].
Qed.

(** The text [int] accepts after the sign, as [float] reads it. *)
Lemma int_body_as_float (body : string) (c : ascii) (tail_ : string)
    (m : Z) (k : nat) (rest : string) (prev : ascii) :
  body = String c tail_ ->
  Py.is_digit c = true ->
  Ascii.eqb prev "_" = false ->
  Py.scan_digits body false 0 0 = Some (m, k, rest) ->
  Py.skip_spaces rest = EmptyString ->
  exists literal k',
    Py.drop_underscores prev (Py.rstrip_spaces body) = Some literal
    /\ Py.take_digits literal 0 0 = (m, S k', EmptyString)
    /\ Py.is_digit (match literal with String a _ => a | EmptyString => prev end) = true
    /\ 0 <= m.
Proof.
  intros -> Hc Hprev Hscan Hrest.
  unfold Py.is_digit in Hc. destruct (Py.digit_value c) as [d|] eqn:Ec; [|discriminate].
  pose proof (digit_bounds _ _ Ec) as Hd.
  cbn [Py.scan_digits] in Hscan. rewrite Ec in Hscan.
  destruct (scan_digits_as_float tail_ false 1 (10 * 0 + d) c m k rest Hscan Hrest)
    as (lit & Hl & Ht & Hk & Hm); [unfold Py.is_digit; rewrite Ec; reflexivity | lia |].
  destruct k as [|k]; [lia|].
  exists (String c lit), k.
  rewrite (rstrip_cons _ _ (digit_not_space _ _ Ec)).
  cbn [Py.drop_underscores Py.take_digits].
  rewrite (digit_not_underscore _ _ Ec), Hprev, Hl, Ec. cbn [andb]. cbv iota.
  repeat split; [exact Ht | unfold Py.is_digit; rewrite Ec; reflexivity | exact Hm].
Qed.

Lemma digit_not_sign (c : ascii) :
  Py.is_digit c = true -> Ascii.eqb c "-" = false /\ Ascii.eqb c "+" = false.
Proof.
  intros H. split.
  - destruct (Ascii.eqb c "-") eqn:E; [|reflexivity].
    apply Ascii.eqb_eq in E. subst c. discriminate H.
  - destruct (Ascii.eqb c "+") eqn:E; [|reflexivity].
    apply Ascii.eqb_eq in E. subst c. discriminate H.
Qed.

(** A sign and a literal of digits, as [float] reads them. *)
Lemma parse_decimal_digits (negative : bool) (sign literal : string) (m : Z) (k : nat) :
  Py.take_sign (sign +:+ literal) = (negative, literal) ->
  Py.take_digits literal 0 0 = (m, S k, EmptyString) ->
  Py.parse_decimal (sign +:+ literal) = Some (Py.FDecimal negative m 0).
Proof.
  intros Hs Ht. unfold Py.parse_decimal. rewrite Hs, Ht. reflexivity.
Qed.

Lemma int_text_is_float_text (max_str_digits : nat) (s : string) (n : Z) :
  Py.int max_str_digits s = Some n ->
  exists (negative : bool) (m : Z),
    0 <= m
    /\ n = (if negative then - m else m)
    /\ Py.float s = Some (Py.FDecimal negative m 0).
Proof.
  unfold Py.int, Py.float.
  destruct (Py.skip_spaces s) as [|c0 s0] eqn:Es; [discriminate|].
  assert (Hfinish : forall (negative : bool) (body : string) (prev : ascii),
             Ascii.eqb prev "_" = false ->
             match body with
             | EmptyString => None
             | String c _ =>
                 if Py.is_digit c
                 then match Py.scan_digits body false 0 0 with
                      | Some (v, ndigits, rest) =>
                          if Py.exceeds_digit_cap max_str_digits ndigits then None
                          else match Py.skip_spaces rest with
                               | EmptyString => Some (if negative then Z.opp v else v)
                               | String _ _ => None
                               end
                      | None => None
                      end
                 else None
             end = Some n ->
             exists literal m k,
               Py.drop_underscores prev (Py.rstrip_spaces body) = Some literal
               /\ Py.take_digits literal 0 0 = (m, S k, EmptyString)
               /\ Py.is_digit (match literal with String a _ => a | EmptyString => prev end) = true
               /\ 0 <= m /\ n = (if negative then - m else m)).
  { intros negative body prev Hprev H.
    destruct body as [|c tl]; [discriminate|].
    destruct (Py.is_digit c) eqn:Hc; [|discriminate].
    destruct (Py.scan_digits (String c tl) false 0 0) as [[[v k] rest]|] eqn:Hscan; [|discriminate].
    destruct (Py.exceeds_digit_cap max_str_digits k); [discriminate|].
    destruct (Py.skip_spaces rest) eqn:Hrest; [|discriminate].
    injection H as <-.
    destruct (int_body_as_float _ c tl v k rest prev eq_refl Hc Hprev Hscan Hrest)
      as (lit & k' & Hl & Ht & Hd & Hv).
    exists lit, v, k'. repeat split; assumption. }
  unfold Py.take_sign.
  destruct (Ascii.eqb c0 "-") eqn:Eminus; [|destruct (Ascii.eqb c0 "+") eqn:Eplus].
  - apply Ascii.eqb_eq in Eminus. subst c0. intros H.
    destruct (Hfinish true s0 "-"%char eq_refl H) as (lit & m & k & Hl & Ht & _ & Hm & Hn).
    exists true, m. repeat split; [exact Hm | exact Hn |].
    rewrite rstrip_cons by reflexivity.
    cbn [Py.drop_underscores]. change (Ascii.eqb "-" "_") with false.
    change (Ascii.eqb "000" "_") with false. cbn [andb]. cbv iota. rewrite Hl.
    rewrite (parse_decimal_digits true "-" lit m k eq_refl Ht
             : Py.parse_decimal (String "-" lit) = _). reflexivity.
  - apply Ascii.eqb_eq in Eplus. subst c0. intros H.
    destruct (Hfinish false s0 "+"%char eq_refl H) as (lit & m & k & Hl & Ht & _ & Hm & Hn).
    exists false, m. repeat split; [exact Hm | exact Hn |].
    rewrite rstrip_cons by reflexivity.
    cbn [Py.drop_underscores]. change (Ascii.eqb "+" "_") with false.
    change (Ascii.eqb "000" "_") with false. cbn [andb]. cbv iota. rewrite Hl.
    rewrite (parse_decimal_digits false "+" lit m k eq_refl Ht
             : Py.parse_decimal (String "+" lit) = _). reflexivity.
  - intros H.
    destruct (Hfinish false (String c0 s0) "000"%char eq_refl H)
      as (lit & m & k & Hl & Ht & Hd & Hm & Hn).
    exists false, m. repeat split; [exact Hm | exact Hn |].
    rewrite Hl.
    destruct lit as [|a lit]; [discriminate Hd|].
    destruct (digit_not_sign a Hd) as [Ha1 Ha2].
    assert (Hsign : Py.take_sign ("" +:+ String a lit) = (false, String a lit)).
    { change ("" +:+ String a lit) with (String a lit).
      unfold Py.take_sign. rewrite Ha1, Ha2. reflexivity. }
    rewrite (parse_decimal_digits false "" (String a lit) m k Hsign Ht
             : Py.parse_decimal (String a lit) = _). reflexivity.
Qed.

(** ** White space around a number *)

Lemma space_not_digit (c : ascii) : Py.is_space c = true -> Py.digit_value c = None.
Proof.
  intros H. destruct (Py.digit_value c) as [d|] eqn:E; [|reflexivity].
  rewrite (digit_not_space _ _ E) in H. discriminate.
Qed.

Lemma space_not_underscore (c : ascii) : Py.is_space c = true -> Ascii.eqb c "_" = false.
Proof.
  intros H. destruct (Ascii.eqb c "_") eqn:E; [|reflexivity].
  apply Ascii.eqb_eq in E. subst c. discriminate H.
Qed.

Lemma skip_spaces_lead (lead s : string) :
  Py.skip_spaces lead = EmptyString -> Py.skip_spaces (lead +:+ s) = Py.skip_spaces s.
Proof.
  induction lead as [|c lead IH]; [reflexivity|].
  rewrite append_cons. cbn [Py.skip_spaces].
  destruct (Py.is_space c); [exact IH | discriminate].
Qed.

Lemma skip_spaces_trail (s trail : string) :
  Py.skip_spaces (s +:+ trail)
  = match Py.skip_spaces s with
    | EmptyString => Py.skip_spaces trail
    | String c r => String c r +:+ trail
    end.
Proof.
  induction s as [|c s IH]; [reflexivity|].
  rewrite append_cons. cbn [Py.skip_spaces].
  destruct (Py.is_space c); [exact IH | reflexivity].
Qed.

Lemma rstrip_spaces_trail (s trail : string) :
  Py.skip_spaces trail = EmptyString ->
  Py.rstrip_spaces (s +:+ trail) = Py.rstrip_spaces s.
Proof.
  intros H. induction s as [|c s IH]; [apply rstrip_all_spaces, H|].
  rewrite append_cons. cbn [Py.rstrip_spaces]. rewrite IH. reflexivity.
Qed.

Lemma scan_digits_trail (s trail : string) :
  Py.skip_spaces trail = EmptyString ->
  forall (after_underscore : bool) (k : nat) (acc : Z),
    Py.scan_digits (s +:+ trail) after_underscore k acc
    = match Py.scan_digits s after_underscore k acc with
      | Some (m, k', rest) => Some (m, k', rest +:+ trail)
      | None => None
      end.
Proof.
  intros H. induction s as [|c s IH]; intros ua k acc.
  - rewrite append_nil_l. cbn [Py.scan_digits].
    destruct trail as [|c t]; [destruct ua; reflexivity|].
    cbn [Py.skip_spaces] in H. destruct (Py.is_space c) eqn:Ec; [|discriminate].
    cbn [Py.scan_digits].
    rewrite (space_not_digit _ Ec), (space_not_underscore _ Ec).
    destruct ua; reflexivity.
  - rewrite append_cons. cbn [Py.scan_digits].
    destruct (Py.digit_value c); [apply IH|].
    destruct (Ascii.eqb c "_"); [destruct ua; [reflexivity | apply IH]|].
    destruct ua; reflexivity.
Qed.

(** White space on both sides of a text changes neither [int] nor [float]
    of it. *)
Lemma int_ignores_padding (max_str_digits : nat) (lead s trail : string) :
  Py.skip_spaces lead = EmptyString ->
  Py.skip_spaces trail = EmptyString ->
  Py.int max_str_digits (lead +:+ s +:+ trail) = Py.int max_str_digits s.
Proof.
  intros Hl Ht. unfold Py.int.
  rewrite (skip_spaces_lead _ _ Hl), skip_spaces_trail.
  destruct (Py.skip_spaces s) as [|c r]; [rewrite Ht; reflexivity|].
  assert (Hsign : Py.take_sign (String c r +:+ trail)
                  = (fst (Py.take_sign (String c r)), snd (Py.take_sign (String c r)) +:+ trail)).
  { rewrite append_cons. unfold Py.take_sign.
    destruct (Ascii.eqb c "-"); [reflexivity|].
    destruct (Ascii.eqb c "+"); reflexivity. }
  rewrite Hsign. destruct (Py.take_sign (String c r)) as [negative body]. cbn [fst snd].
  destruct body as [|d body].
  - rewrite append_nil_l. destruct trail as [|e t]; [reflexivity|].
    cbn [Py.skip_spaces] in Ht. destruct (Py.is_space e) eqn:Ee; [|discriminate].
    unfold Py.is_digit. rewrite (space_not_digit _ Ee). reflexivity.
  - rewrite append_cons. destruct (Py.is_digit d); [|reflexivity].
    rewrite <- append_cons, (scan_digits_trail _ _ Ht).
    destruct (Py.scan_digits (String d body) false 0 0) as [[[v k] rest]|]; [|reflexivity].
    destruct (Py.exceeds_digit_cap max_str_digits k); [reflexivity|].
    rewrite skip_spaces_trail.
    destruct (Py.skip_spaces rest); [rewrite Ht; reflexivity | reflexivity].
Qed.

Lemma float_ignores_padding (lead s trail : string) :
  Py.skip_spaces lead = EmptyString ->
  Py.skip_spaces trail = EmptyString ->
  Py.float (lead +:+ s +:+ trail) = Py.float s.
Proof.
  intros Hl Ht. unfold Py.float.
  rewrite (skip_spaces_lead _ _ Hl), skip_spaces_trail.
  destruct (Py.skip_spaces s) as [|c r]; [rewrite Ht; reflexivity|].
  rewrite (rstrip_spaces_trail _ _ Ht). reflexivity.
Qed.

Section TypedLookups.

Context (find_xpath : Element -> string -> gmap string string -> outcome (option Element))
        (int_max_str_digits : nat).

(** X13: whenever [find_int] returns an integer, [find_float] on the same
    path returns a float: the text an element must hold for [int] to accept
    it is text that [float] accepts, so [find_float] neither raises nor
    returns the absent result there. *)
Theorem find_float_reads_integer_text (path : string) (self : Querier) (n : Z) :
  result (find_int find_xpath int_max_str_digits path) self = Return (Some n) ->
  exists x : Py.PyFloat, result (find_float find_xpath path) self = Return (Some x).
Proof.
  intros H. unfold result in H. rewrite find_int_unfold in H. cbn [fst] in H.
  destruct (result (find_str find_xpath path) self) as [[s|]|e] eqn:Hs; try discriminate.
  destruct (Py.int int_max_str_digits s) as [n'|] eqn:Hn; [|discriminate].
  destruct (int_text_is_float_text _ _ _ Hn) as (negative & m & _ & _ & Hf).
  exists (Py.FDecimal negative m 0).
  unfold result. rewrite find_float_unfold. cbn [fst]. rewrite Hs, Hf. reflexivity.
Qed.

(** X14: white space around the text of an element is kept by [find_str]
    and ignored by the typed lookups: they return, or raise, as on the text
    without it; on text that is white space only they raise. *)
Theorem typed_lookups_ignore_padding
    (path : string) (self : Querier) (e : Element) (lead s trail : string) :
  find find_xpath (_tree self) (_add_namespace path) (_namespaces self) = Return (Some e) ->
  text e = Some (lead +:+ s +:+ trail) ->
  Py.skip_spaces lead = EmptyString ->
  Py.skip_spaces trail = EmptyString ->
  result (find_str find_xpath path) self = Return (Some (lead +:+ s +:+ trail))
  /\ result (find_int find_xpath int_max_str_digits path) self
     = match Py.int int_max_str_digits s with
       | Some n => Return (Some n)
       | None => Raise ValueError
       end
  /\ result (find_float find_xpath path) self
     = match Py.float s with
       | Some x => Return (Some x)
       | None => Raise ValueError
       end
  /\ (s = EmptyString ->
      result (find_int find_xpath int_max_str_digits path) self = Raise ValueError
      /\ result (find_float find_xpath path) self = Raise ValueError).
Proof.
  intros H Ht Hl Hr.
  pose proof (find_str_found find_xpath _ _ _ H) as Hs. rewrite Ht in Hs.
  assert (Hi : result (find_int find_xpath int_max_str_digits path) self
               = match Py.int int_max_str_digits s with
                 | Some n => Return (Some n)
                 | None => Raise ValueError
                 end).
  { unfold result. rewrite find_int_unfold. cbn [fst].
    rewrite Hs, (int_ignores_padding _ _ _ _ Hl Hr). reflexivity. }
  assert (Hf : result (find_float find_xpath path) self
               = match Py.float s with
                 | Some x => Return (Some x)
                 | None => Raise ValueError
                 end).
  { unfold result. rewrite find_float_unfold. cbn [fst].
    rewrite Hs, (float_ignores_padding _ _ _ Hl Hr). reflexivity. }
  repeat split; try assumption; subst s; [rewrite Hi | rewrite Hf]; reflexivity.
Qed.

End TypedLookups.

Lemma find_float_reads_integer_text_witness :
  exists x : Py.PyFloat,
    result (find_float no_xpath "/IRS990/TotalEmployeeCnt") (__init__ filing)
    = Return (Some x).
Proof.
  apply (find_float_reads_integer_text no_xpath 4300 "/IRS990/TotalEmployeeCnt"
           (__init__ filing) 19). reflexivity.
Defined.

Lemma typed_lookups_ignore_padding_witness :
  result (find_int no_xpath 4300 "/TotalEmployeeCnt") (__init__ padded_filing)
  = Return (Some 19)
  /\ result (find_int no_xpath 4300 "/Blank") (__init__ padded_filing) = Raise ValueError.
Proof.
  split.
  - apply (proj1 (proj2 (typed_lookups_ignore_padding no_xpath 4300 "/TotalEmployeeCnt"
                           (__init__ padded_filing)
                           (leaf "TotalEmployeeCnt" (Some (String "010" "  19 ")))
                           (String "010" "  ") "19" " "
                           eq_refl eq_refl eq_refl eq_refl))).
  - apply (proj2 (proj2 (proj2 (typed_lookups_ignore_padding no_xpath 4300 "/Blank"
                                  (__init__ padded_filing)
                                  (leaf "Blank" (Some (String "010" "  ")))
                                  (String "010" "  ") "" ""
                                  eq_refl eq_refl eq_refl eq_refl)))). reflexivity.
Defined.
